(** * Tadashi: subscription store, payment callback, content gate and scraper

    A shallow embedding of [Horoscope_bot_991.py] and [parser.py].

    Conventions.
    - A Python [str] is a [string] holding its UTF-8 bytes.
    - A [datetime] is a [Z]: microseconds on the local naive time line,
      counted from [datetime.min], 0001-01-01T00:00:00.  [isoformat]
      followed by [fromisoformat] is the identity on such values, so the
      JSON table stores the [Z] itself.  The year-9999 ceiling of
      [datetime] is [UserDB.datetime_max]; the one sum of the program that
      can pass it is line 85, see [UserDB.add_days].
    - [datetime.now()] is a reading of a clock owned by the world: the n-th
      call in program order returns [clock n].
    - [self.users] and the JSON file on disk are two fields of the world;
      [_save] copies the first onto the second. *)

From Stdlib Require Import Floats Ascii.
From stdpp Require Import gmap strings pretty list.

Local Open Scope string_scope.
Local Open Scope Z_scope.

(** ** Python strings and builtins *)

Module Py.

(** Builtins of the Python runtime whose full Unicode tables and parsers
    are not part of this repository.  [int_of_str] and [float_of_str] are
    [int(s)] and [float(s)]; [None] stands for [ValueError]. *)
Class Builtins := {
  lower : string -> string;
  upper : string -> string;
  strip : string -> string;
  title : string -> string;
  int_of_str : string -> option Z;
  float_of_str : string -> option float
}.

(** [float(n)] for an [int] within the 63-bit range. *)
Definition float_of_int (n : Z) : float := PrimFloat.of_uint63 (Uint63.of_Z n).

Definition nl : string := String (ascii_of_nat 10) "".
Definition dq : string := String (ascii_of_nat 34) "".

(** Truth value of a string: empty is false. *)
Definition truthy (s : string) : bool :=
  match s with EmptyString => false | String _ _ => true end.

(** Truth value of [d.get(key)] for a string-valued key. *)
Definition present (o : option string) : bool :=
  match o with None => false | Some s => truthy s end.

(** [len(s)]: code points, which in UTF-8 are the bytes that are not
    continuation bytes (10xxxxxx). *)
Definition is_continuation (c : ascii) : bool :=
  let n := nat_of_ascii c in (128 <=? n)%nat && (n <? 192)%nat.

Fixpoint len (s : string) : Z :=
  match s with
  | EmptyString => 0
  | String c r => (if is_continuation c then 0 else 1) + len r
  end.

(** [needle in hay]. *)
Fixpoint contains (needle hay : string) : bool :=
  String.prefix needle hay ||
  match hay with
  | EmptyString => false
  | String _ r => contains needle r
  end.

(** [s.replace(old, new)] for a non-empty [old]: occurrences are taken left
    to right without overlap; [skip] counts the bytes of a match still to be
    dropped. *)
Fixpoint replace_from (old new : string) (skip : nat) (s : string) : string :=
  match s with
  | EmptyString => EmptyString
  | String c r =>
      match skip with
      | S k => replace_from old new k r
      | O =>
          if String.prefix old s
          then new +:+ replace_from old new (String.length old - 1) r
          else String c (replace_from old new O r)
      end
  end.

Definition replace (s old new : string) : string := replace_from old new O s.

(** [s.split(sep)] for a one-character separator. *)
Fixpoint split (sep : ascii) (s : string) : list string :=
  match s with
  | EmptyString => [EmptyString]
  | String c r =>
      if Ascii.eqb c sep then EmptyString :: split sep r
      else match split sep r with
           | h :: t => String c h :: t
           | [] => [String c EmptyString]
           end
  end.

(** [sep.join(parts)]. *)
Fixpoint join (sep : string) (parts : list string) : string :=
  match parts with
  | [] => ""
  | [x] => x
  | x :: rest => x +:+ sep +:+ join sep rest
  end.

(** [d.get(key)] on a dict written as its list of items. *)
Fixpoint dict_get {V} (d : list (string * V)) (key : string) : option V :=
  match d with
  | [] => None
  | (k, v) :: rest => if String.eqb k key then Some v else dict_get rest key
  end.


(** [os.path.join(a, b)] on POSIX: an absolute [b] discards [a]. *)
Definition path_join (a b : string) : string :=
  if String.prefix "/" b then b
  else if String.prefix "/" (String.rev a) || negb (truthy a) then a +:+ b
  else a +:+ "/" +:+ b.

(** *** A small instance of the builtins, to run the model on examples

    It covers ASCII and the Russian alphabet: enough for the pages, button
    texts and callbacks the examples use, where it gives what Python
    gives. *)

Definition byte (n : nat) (c : ascii) : bool := (nat_of_ascii c =? n)%nat.
Definition between (lo hi : nat) (c : ascii) : bool :=
  let n := nat_of_ascii c in (lo <=? n)%nat && (n <=? hi)%nat.
Definition shifted (d : nat) (c : ascii) : ascii := ascii_of_nat (nat_of_ascii c + d).
Definition unshifted (d : nat) (c : ascii) : ascii := ascii_of_nat (nat_of_ascii c - d).

(** UTF-8: А..П is D0 90..9F, Р..Я is D0 A0..AF, а..п is D0 B0..BF,
    р..я is D1 80..8F, Ё is D0 81 and ё is D1 91. *)
Fixpoint ru_lower (s : string) : string :=
  match s with
  | EmptyString => EmptyString
  | String c r =>
      match r with
      | String c2 r2 =>
          if byte 208 c && between 144 159 c2 then String c (String (shifted 32 c2) (ru_lower r2))
          else if byte 208 c && between 160 175 c2 then
            String (ascii_of_nat 209) (String (unshifted 32 c2) (ru_lower r2))
          else if byte 208 c && byte 129 c2 then
            String (ascii_of_nat 209) (String (ascii_of_nat 145) (ru_lower r2))
          else if between 65 90 c then String (shifted 32 c) (ru_lower r)
          else String c (ru_lower r)
      | EmptyString => if between 65 90 c then String (shifted 32 c) EmptyString else s
      end
  end.

Fixpoint ru_upper (s : string) : string :=
  match s with
  | EmptyString => EmptyString
  | String c r =>
      match r with
      | String c2 r2 =>
          if byte 208 c && between 176 191 c2 then String c (String (unshifted 32 c2) (ru_upper r2))
          else if byte 209 c && between 128 143 c2 then
            String (ascii_of_nat 208) (String (shifted 32 c2) (ru_upper r2))
          else if byte 209 c && byte 145 c2 then
            String (ascii_of_nat 208) (String (ascii_of_nat 129) (ru_upper r2))
          else if between 97 122 c then String (unshifted 32 c) (ru_upper r)
          else String c (ru_upper r)
      | EmptyString => if between 97 122 c then String (unshifted 32 c) EmptyString else s
      end
  end.

Definition is_space (c : ascii) : bool := between 9 13 c || between 28 32 c.

Fixpoint lstrip (s : string) : string :=
  match s with
  | String c r => if is_space c then lstrip r else s
  | EmptyString => EmptyString
  end.

Definition ascii_strip (s : string) : string :=
  String.rev (lstrip (String.rev (lstrip s))).

(** Upper-case the first letter of every space-separated word and
    lower-case the rest. *)
Definition capitalize (word : string) : string :=
  match word with
  | String c (String c2 r) =>
      if between 208 209 c then ru_upper (String c (String c2 "")) +:+ ru_lower r
      else ru_upper (String c "") +:+ ru_lower (String c2 r)
  | _ => ru_upper word
  end.

Definition ru_title (s : string) : string :=
  join " " (List.map capitalize (split " " s)).

Fixpoint digits (s : string) (acc : Z) : option Z :=
  match s with
  | EmptyString => Some acc
  | String c r =>
      if between 48 57 c then digits r (10 * acc + Z.of_nat (nat_of_ascii c - 48))
      else None
  end.

Definition decimal (s : string) : option Z :=
  if truthy s then digits s 0 else None.

Definition reference : Builtins := {|
  lower := ru_lower;
  upper := ru_upper;
  strip := ascii_strip;
  title := ru_title;
  int_of_str := decimal;
  float_of_str := fun s => float_of_int <$> decimal s
|}.

End Py.

(** ** The user table ([class UserDB]) *)

Module UserDB.

Record Subscription := mkSubscription {
  active : bool;
  expires : option Z;
  type : option string;
  start_date : option Z;
  trial_used : bool
}.

Record User := mkUser {
  username : option string;
  subscription : Subscription;
  last_active : Z
}.

Record World := mkWorld {
  users : gmap string User;     (* self.users *)
  db_file : gmap string User;   (* contents of users_db.json *)
  clock : nat -> Z;             (* readings of datetime.now() *)
  ticks : nat                   (* readings consumed so far *)
}.

(** State passing; sequencing is written with stdpp's monad notation. *)
Definition M (A : Type) : Type := World -> A * World.

#[global] Instance M_ret : MRet M := fun A a w => (a, w).

#[global] Instance M_bind : MBind M :=
  fun A B k m w => let (a, w') := m w in k a w'.

Definition ret {A} (a : A) : M A := mret a.

Definition exec {A} (m : M A) (w : World) : World := snd (m w).
Definition eval {A} (m : M A) (w : World) : A := fst (m w).

Definition get_users : M (gmap string User) := fun w => (users w, w).

Definition modify_users (f : gmap string User -> gmap string User) : M unit :=
  fun w => (tt, mkWorld (f (users w)) (db_file w) (clock w) (ticks w)).

Definition datetime_now : M Z :=
  fun w => (clock w (ticks w), mkWorld (users w) (db_file w) (clock w) (S (ticks w))).

(** [timedelta(days=d)] in microseconds. *)
Definition timedelta (days : Z) : Z := days * 86400000000.

(** [datetime.max], 9999-12-31T23:59:59.999999: the last microsecond of
    the 3652059 days that [datetime] covers. *)
Definition datetime_max : Z := 3652059 * 86400000000 - 1.

(** [timedelta(days=d)] exists for day counts of this magnitude at most. *)
Definition timedelta_max_days : Z := 999999999.

(** [now + timedelta(days=days)] as Python evaluates it.  [None] is the
    [OverflowError] that [timedelta] raises for a day count beyond its
    range and that the sum raises when it falls outside [datetime]. *)
Definition add_days (now days : Z) : option Z :=
  if (Z.abs days <=? timedelta_max_days)
     && (0 <=? now + timedelta days) && (now + timedelta days <=? datetime_max)
  then Some (now + timedelta days)
  else None.

Definition _save : M unit :=
  fun w => (tt, mkWorld (users w) (users w) (clock w) (ticks w)).

Definition default_subscription : Subscription :=
  mkSubscription false None None None false.

Definition add_user (user_id : Z) (uname : option string) : M unit :=
  let user_id_str := pretty user_id in
  us ← get_users;
  match us !! user_id_str with
  | Some _ => ret tt
  | None =>
      now ← datetime_now;
      modify_users (insert user_id_str (mkUser uname default_subscription now));;
      _save
  end.

Definition on_subscription (f : Subscription -> Subscription) (u : User) : User :=
  mkUser (username u) (f (subscription u)) (last_active u).

(** [subscription.update({'active': True, 'expires': ..., 'type': ...,
    'start_date': ...})]: [trial_used] is not among the keys. *)
Definition update_subscription (e : Z) (ty : string) (sd : Z) (s : Subscription) : Subscription :=
  mkSubscription true (Some e) (Some ty) (Some sd) (trial_used s).

Definition set_trial_used (s : Subscription) : Subscription :=
  mkSubscription (active s) (expires s) (type s) (start_date s) true.

Definition set_inactive (s : Subscription) : Subscription :=
  mkSubscription false (expires s) (type s) (start_date s) (trial_used s).

(** The key is present when the record is updated (it was just added if
    missing), so [alter] never meets Python's [KeyError] case.

    This is the call on the path where line 85 yields a datetime: the sum
    is the sum in [Z].  [set_subscription_or_raise] below is the same
    call with the [OverflowError] of that line. *)
Definition set_subscription (user_id : Z) (days : Z) (sub_type : string) : M unit :=
  let user_id_str := pretty user_id in
  us ← get_users;
  (match us !! user_id_str with
   | None => add_user user_id None
   | Some _ => ret tt
   end);;
  now1 ← datetime_now;
  let expires := now1 + timedelta days in
  start_date ← datetime_now;
  modify_users (alter (on_subscription (update_subscription expires sub_type start_date)) user_id_str);;
  (if String.eqb sub_type "trial"
   then modify_users (alter (on_subscription set_trial_used) user_id_str)
   else ret tt);;
  _save.

(** [set_subscription] with the exception of line 85: [None] is the
    [OverflowError] of [datetime.now() + timedelta(days=days)].  It is
    raised after the user was added if missing and after the clock was
    read, and before any field of the subscription is written; [Some tt]
    is the call that returns. *)
Definition set_subscription_or_raise (user_id : Z) (days : Z) (sub_type : string)
  : M (option unit) :=
  let user_id_str := pretty user_id in
  us ← get_users;
  (match us !! user_id_str with
   | None => add_user user_id None
   | Some _ => ret tt
   end);;
  now1 ← datetime_now;
  match add_days now1 days with
  | None => ret None
  | Some expires =>
      start_date ← datetime_now;
      modify_users (alter (on_subscription (update_subscription expires sub_type start_date)) user_id_str);;
      (if String.eqb sub_type "trial"
       then modify_users (alter (on_subscription set_trial_used) user_id_str)
       else ret tt);;
      _save;;
      ret (Some tt)
  end.

Definition has_active_subscription (user_id : Z) : M bool :=
  let user_id_str := pretty user_id in
  us ← get_users;
  match us !! user_id_str with
  | None => ret false
  | Some u =>
      if negb (active (subscription u)) then ret false
      else
        match expires (subscription u) with
        | None => ret true
        | Some e =>
            now ← datetime_now;
            if e <? now then
              modify_users (alter (on_subscription set_inactive) user_id_str);;
              _save;;
              ret false
            else ret true
        end
  end.

Definition get_expiry (user_id : Z) : M (option Z) :=
  us ← get_users;
  match us !! pretty user_id with
  | Some u => if active (subscription u) then ret (expires (subscription u)) else ret None
  | None => ret None
  end.

Definition get_subscription_start (user_id : Z) : M (option Z) :=
  us ← get_users;
  match us !! pretty user_id with
  | Some u => if active (subscription u) then ret (start_date (subscription u)) else ret None
  | None => ret None
  end.

(** [get_all_users]: the records with their keys.  A [gmap] keeps no
    insertion order, so the order of the list is not the dict's. *)
Definition get_all_users : M (list (string * User)) :=
  us ← get_users; ret (map_to_list us).

Definition format_remaining_time (expires : option Z) : M string :=
  match expires with
  | None => ret ""
  | Some e =>
      now ← datetime_now;
      if e <? now then ret "истекла"
      else
        let diff := e - now in
        let days := diff / 86400000000 in
        let seconds := (diff mod 86400000000) / 1000000 in
        let hours := seconds / 3600 in
        if 0 <? days then ret (pretty days +:+ "д " +:+ pretty hours +:+ "ч")
        else
          let minutes := (seconds mod 3600) / 60 in
          ret (pretty hours +:+ "ч " +:+ pretty minutes +:+ "м")
  end.

Definition can_use_trial (user_id : Z) : M bool :=
  let user_id_str := pretty user_id in
  us ← get_users;
  (match us !! user_id_str with
   | None => add_user user_id None
   | Some _ => ret tt
   end);;
  us ← get_users;
  match us !! user_id_str with
  | Some u => ret (negb (trial_used (subscription u)))
  | None => ret true
  end.

(** The calls the rest of the program makes on the table.  Nothing outside
    this class assigns to [self.users]. *)
Inductive Op :=
| AddUser (user_id : Z) (uname : option string)
| SetSubscription (user_id : Z) (days : Z) (sub_type : string)
| HasActiveSubscription (user_id : Z)
| GetExpiry (user_id : Z)
| GetSubscriptionStart (user_id : Z)
| GetAllUsers
| FormatRemainingTime (expires : option Z)
| CanUseTrial (user_id : Z).

Definition run_op (op : Op) : World -> World :=
  match op with
  | AddUser user_id uname => exec (add_user user_id uname)
  | SetSubscription user_id days sub_type => exec (set_subscription user_id days sub_type)
  | HasActiveSubscription user_id => exec (has_active_subscription user_id)
  | GetExpiry user_id => exec (get_expiry user_id)
  | GetSubscriptionStart user_id => exec (get_subscription_start user_id)
  | GetAllUsers => exec get_all_users
  | FormatRemainingTime expires => exec (format_remaining_time expires)
  | CanUseTrial user_id => exec (can_use_trial user_id)
  end.

Definition run_ops (ops : list Op) (w : World) : World :=
  fold_left (fun w op => run_op op w) ops w.

(** The stored [trial_used] flag of a user; a user without a record has
    not used the trial. *)
Definition trial_used_of (w : World) (user_id : Z) : bool :=
  match users w !! pretty user_id with
  | Some u => trial_used (subscription u)
  | None => false
  end.

End UserDB.

(** ** The scraper ([class HoroscopeParser]) *)

Module HoroscopeParser.

(** What one [requests.get] + [raise_for_status] + [BeautifulSoup] round
    gives: a [requests.RequestException], some other exception, or the
    parsed document. *)
Inductive Fetched (Soup : Type) :=
| RequestException
| OtherException
| Document (soup : Soup).
Arguments RequestException {Soup}.
Arguments OtherException {Soup}.
Arguments Document {Soup} soup.

(** Observable effects of a fetch, in program order. *)
Inductive Event :=
| Get (url : string)
| Sleep (seconds : Z).

(** A horoscope page answers [soup.select_one(selector)] with the [.text]
    of the first matching element, if any. *)
Definition HoroscopeSoup := string -> option string.

(** A tarot page: the [.text] of [h2.h7yAL.xAIf2] and, when the
    [articleBody] container exists, the [.text] of each of its [<p>]. *)
Record TarotSoup := mkTarotSoup {
  title_tag : option string;
  description_tag : option (list string)
}.

Definition zodiac_signs : list (string * (string * string)) :=
  [ ("овен", ("aries", "♈️"));
    ("телец", ("taurus", "♉️"));
    ("близнецы", ("gemini", "♊️"));
    ("рак", ("cancer", "♋️"));
    ("лев", ("leo", "♌️"));
    ("дева", ("virgo", "♍️"));
    ("весы", ("libra", "♎️"));
    ("скорпион", ("scorpio", "♏️"));
    ("стрелец", ("sagittarius", "♐️"));
    ("козерог", ("capricorn", "♑️"));
    ("водолей", ("aquarius", "♒️"));
    ("рыбы", ("pisces", "♓️")) ].

Definition base_url (sign_en : string) : string :=
  "https://horoscopes.rambler.ru/" +:+ sign_en +:+ "/today/".
Definition tarot_url : string := "https://horoscopes.rambler.ru/taro/".
Definition tarot_images_path : string := "/root/TAROBOT/tarot_images".

Definition class_selector (tag cls : string) : string :=
  tag +:+ "[class*=" +:+ Py.dq +:+ cls +:+ Py.dq +:+ "]".

Definition possible_selectors : list string :=
  [ class_selector "p" "_5yHoW";
    class_selector "p" "AjIPq";
    class_selector "p" "horoscope-text";
    class_selector "p" "article-text";
    class_selector "div" "content" +:+ " p";
    "article p";
    class_selector "div" "text-block" +:+ " p";
    "p" ].

Definition invalid_sign_text : string := "Неверный знак зодиака".
Definition network_error_text : string :=
  "Извините, не удалось подключиться к сайту. Проверьте DNS или доступность сайта.".
Definition not_found_text : string :=
  "Извините, не удалось получить гороскоп. Попробуйте позже.".
Definition unexpected_error_text : string :=
  "Извините, произошла непредвиденная ошибка. Попробуйте позже.".

Definition file_name_corrections : list (string * string) :=
  [
    ("туз кубков", "туз_кубков.png");
    ("двойка кубков", "двойка_кубков.png");
    ("тройка кубков", "тройка_кубков.png");
    ("четверка кубков", "четверка_кубков.png");
    ("пятерка кубков", "пятерка_кубков.png");
    ("шестерка кубков", "шестерка_кубков.png");
    ("семерка кубков", "семерка_кубков.png");
    ("восьмерка кубков", "восьмерка_кубков.png");
    ("девятка кубков", "девятка_кубков.png");
    ("десятка кубков", "десятка_кубков.png");
    ("паж кубков", "паж_кубков.png");
    ("рыцарь кубков", "рыцарь_кубков.png");
    ("королева кубков", "королева_кубков.png");
    ("король кубков", "король_кубков.png");
    ("туз мечей", "туз_мечей.png");
    ("двойка мечей", "двойка_мечей.png");
    ("тройка мечей", "тройка_мечей.png");
    ("четверка мечей", "четверка_мечей.png");
    ("пятерка мечей", "пятерка_мечей.png");
    ("шестерка мечей", "шестерка_мечей.png");
    ("семерка мечей", "семерка_мечей.png");
    ("восьмерка мечей", "восьмерка_мечей.png");
    ("девятка мечей", "девятка_мечей.png");
    ("десятка мечей", "десятка_мечей.png");
    ("паж мечей", "паж_мечей.png");
    ("рыцарь мечей", "рыцарь_мечей.png");
    ("королева мечей", "королева_мечей.png");
    ("король мечей", "король_мечей.png");
    ("туз посохов", "туз_посохов.png");
    ("двойка посохов", "двойка_посохов.png");
    ("тройка посохов", "тройка_посохов.png");
    ("четверка посохов", "четверка_посохов.png");
    ("пятерка посохов", "пятерка_посохов.png");
    ("шестерка посохов", "шестерка_посохов.png");
    ("семерка посохов", "семерка_посохов.png");
    ("восьмерка посохов", "восьмерка_посохов.png");
    ("девятка посохов", "девятка_посохов.png");
    ("десятка посохов", "десятка_посохов.png");
    ("паж посохов", "паж_посохов.png");
    ("рыцарь посохов", "рыцарь_посохов.png");
    ("королева посохов", "королева_посохов.png");
    ("король посохов", "король_посохов.png");
    ("туз пентаклей", "туз_пентаклей.png");
    ("двойка пентаклей", "двойка_пентаклей.png");
    ("тройка пентаклей", "тройка_пентаклей.png");
    ("четверка пентаклей", "четверка_пентаклей.png");
    ("пятерка пентаклей", "пятерка_пентаклей.png");
    ("шестерка пентаклей", "шестерка_пентаклей.png");
    ("семерка пентаклей", "семерка_пентаклей.png");
    ("восьмерка пентаклей", "восьмерка_пентаклей.png");
    ("девятка пентаклей", "девятка_пентаклей.png");
    ("десятка пентаклей", "десятка_пентаклей.png");
    ("паж пентаклей", "паж_пентаклей.png");
    ("рыцарь пентаклей", "рыцарь_пентаклей.png");
    ("королева пентаклей", "королева_пентаклей.png");
    ("король пентаклей", "король_пентаклей.png");
    ("шут", "шут.png");
    ("маг", "маг.png");
    ("жрица", "жрица.png");
    ("императрица", "императрица.png");
    ("император", "император.png");
    ("иерофант", "иерофант.png");
    ("влюбленные", "влюбленные.png");
    ("колесница", "колесница.png");
    ("сила", "сила.png");
    ("отшельник", "отшельник.png");
    ("колесо фортуны", "колесо_фортуны.png");
    ("справедливость", "справедливость.png");
    ("повешенный", "повешенный.png");
    ("смерть", "смерть.png");
    ("умеренность", "умеренность.png");
    ("дьявол", "дьявол.png");
    ("башня", "башня.png");
    ("звезда", "звезда.png");
    ("луна", "луна.png");
    ("солнце", "солнце.png");
    ("суд", "суд.png");
    ("мир", "мир.png")
  ].

Section WithBuiltins.
Context `{Py.Builtins}.

Definition stripped_nonempty (p : option string) : bool :=
  match p with
  | Some text => Py.truthy (Py.strip text)
  | None => false
  end.

(** The selector loop: [horoscope_p] is reassigned at every selector and
    the loop is left at the first one whose stripped text is non-empty. *)
Fixpoint select_loop (soup : HoroscopeSoup) (selectors : list string)
         (horoscope_p : option string) : option string :=
  match selectors with
  | [] => horoscope_p
  | selector :: rest =>
      let horoscope_p := soup selector in
      if stripped_nonempty horoscope_p then horoscope_p
      else select_loop soup rest horoscope_p
  end.

(** The test after the loop, on the one element the loop left. *)
Definition accepted (horoscope_p : option string) : option string :=
  match horoscope_p with
  | Some text =>
      if Py.truthy (Py.strip text) && (50 <? Py.len (Py.strip text))
      then Some (Py.strip text) else None
  | None => None
  end.

(** [for attempt in range(3)], over the attempts still to run.  A parsed
    document ends the loop whatever the selectors find ([return] or
    [break]); only a [RequestException] reaches the next attempt. *)
Fixpoint horoscope_attempts (net : nat -> Fetched HoroscopeSoup) (url : string)
         (attempts : list nat) : string * list Event :=
  match attempts with
  | [] => (not_found_text, [])
  | attempt :: rest =>
      match net attempt with
      | Document soup =>
          match accepted (select_loop soup possible_selectors None) with
          | Some horoscope_text => (horoscope_text, [Get url])
          | None => (not_found_text, [Get url])
          end
      | RequestException =>
          if (attempt <? 2)%nat then
            let (r, tr) := horoscope_attempts net url rest in
            (r, Get url :: Sleep 5 :: tr)
          else (network_error_text, [Get url])
      | OtherException => (unexpected_error_text, [Get url])
      end
  end.

Definition get_horoscope (net : nat -> Fetched HoroscopeSoup) (sign : string)
  : string * list Event :=
  let sign := Py.lower sign in
  match Py.dict_get zodiac_signs sign with
  | None => (invalid_sign_text, [])
  | Some (sign_en, sign_symbol) =>
      horoscope_attempts net (base_url sign_en) (seq 0 3)
  end.

Definition network_error_tarot : string * string * option string :=
  ("Карта дня",
   "✨Карта дня✨" +:+ Py.nl +:+ "📬 Не удалось подключиться к сайту для Таро.",
   None).
Definition unexpected_error_tarot : string * string * option string :=
  ("Карта дня",
   "✨Карта дня✨" +:+ Py.nl +:+ "📬 Не удалось получить описание карты.",
   None).

(** The retry loop of [get_tarot]: it only fetches; [None] is the early
    [return] after the third failure, [Some] the value [response] holds
    after [break] (an exception other than [RequestException] leaves the
    whole [try]). *)
Fixpoint tarot_attempts (net : nat -> Fetched TarotSoup) (attempts : list nat)
  : option (Fetched TarotSoup) * list Event :=
  match attempts with
  | [] => (Some OtherException, [])
  | attempt :: rest =>
      match net attempt with
      | RequestException =>
          if (attempt <? 2)%nat then
            let (r, tr) := tarot_attempts net rest in
            (r, Get tarot_url :: Sleep 5 :: tr)
          else (None, [Get tarot_url])
      | other => (Some other, [Get tarot_url])
      end
  end.

Definition card_name_of (card_title : string) : string :=
  let card_name := card_title in
  let card_name :=
    if Py.contains ":" card_name then
      Py.strip (nth 1 (Py.split ":" card_name) "")
    else if Py.contains "Карта Таро сегодня" card_name then
      Py.strip (Py.replace card_name "Карта Таро сегодня" "")
    else card_name in
  Py.strip (Py.replace card_name "ё" "е").

Definition card_description_of (soup : TarotSoup) : string :=
  match description_tag soup with
  | Some ps =>
      Py.join (Py.nl +:+ Py.nl)
              (List.map Py.strip (List.filter (fun p => Py.truthy (Py.strip p)) ps))
  | None => "Описание недоступно"
  end.

Definition file_name_of (card_name : string) : string :=
  let file_name_base := Py.replace (Py.lower card_name) " " "_" in
  match Py.dict_get file_name_corrections file_name_base with
  | Some file_name => file_name
  | None => file_name_base +:+ ".png"
  end.

(** [os.path.exists(image_path)] selects between two log lines and
    nothing else; [image_path] is returned on both branches. *)
Definition get_tarot (exists_on_disk : string -> bool) (net : nat -> Fetched TarotSoup)
  : (string * string * option string) * list Event :=
  match tarot_attempts net (seq 0 3) with
  | (None, tr) => (network_error_tarot, tr)
  | (Some RequestException, tr) | (Some OtherException, tr) => (unexpected_error_tarot, tr)
  | (Some (Document soup), tr) =>
      let card_title :=
        match title_tag soup with
        | Some text => Py.strip text
        | None => "Карта дня"
        end in
      let card_name := card_name_of card_title in
      let card_description := card_description_of soup in
      let file_name := file_name_of card_name in
      let image_path := Py.path_join tarot_images_path file_name in
      let image_path :=
        if exists_on_disk image_path then image_path else image_path in
      let formatted_output :=
        "✨ " +:+ card_name +:+ "✨" +:+ Py.nl +:+ Py.nl +:+ "📬 " +:+ card_description in
      ((card_title, formatted_output, Some image_path), tr)
  end.

End WithBuiltins.

End HoroscopeParser.

(** ** The bot ([Horoscope_bot_991.py]): callback, menu and content gate *)

Module Bot.
Import UserDB.

Record Plan := mkPlan {
  name : string;
  price : Z;
  period : string;
  days : Z;
  per_day : string
}.

Definition SUBSCRIPTION_PLANS : list (string * Plan) :=
  [ ("week", mkPlan "7 дней" 159 "7 дней" 7 "22р в день");
    ("month", mkPlan "30 дней" 359 "30 дней" 30 "11р в день") ].

(** [str(user_id) in ADMIN_IDS], the test of the admin handlers;
    [ADMIN_IDS] is read from the environment at start-up. *)
Definition is_admin (ADMIN_IDS : list string) (user_id : Z) : bool :=
  existsb (String.eqb (pretty user_id)) ADMIN_IDS.

Definition back_button : string := "◶ Назад".
Definition buy_button : string := "💎 Оформить подписку".
Definition trial_button : string := "🎁 Активировать пробный период (3 дня)".
Definition horoscope_button : string := "🌟 Гороскоп на сегодня".
Definition tarot_button : string := "🎴 Карта Таро дня".

Definition get_main_menu (user_id : Z) : M (list (list string)) :=
  is_active ← has_active_subscription user_id;
  expires ← get_expiry user_id;
  sub_text ← (if negb is_active then ret buy_button
              else
                remaining ← format_remaining_time expires;
                ret ("💎 Подписка активна (осталось " +:+ remaining +:+ ")"));
  ret [ ["✨ Выбрать расклад/узнать прайс"; "Психология: как проходит/прайс💜"];
        [horoscope_button; tarot_button];
        [sub_text] ].

(** The notification text (a formatted calendar date) and the outcome of
    [bot.send_message] are not represented: a failed send is caught and
    logged inside the function.  What remains is the reads it makes of
    the clock and the store, in order; [None] is the [KeyError] of an
    unknown [plan_id]. *)
Definition send_subscription_notification (user_id : Z) (plan_id : string)
           (is_trial : bool) : M (option unit) :=
  if is_trial then
    _ ← datetime_now;
    _ ← get_main_menu user_id;
    ret (Some tt)
  else
    match Py.dict_get SUBSCRIPTION_PLANS plan_id with
    | None => ret None
    | Some plan =>
        _ ← get_expiry user_id;
        _ ← get_main_menu user_id;
        ret (Some tt)
    end.

(** *** [POST /callback] *)

(** The JSON body: [data.get("property", {}).get(<id field>)],
    [data.get("state")], [data.get("amount")], [data.get("regPayNum")],
    each a string or missing, as the gateway's interface has them. *)
Record CallbackData := mkCallbackData {
  cb_user_id : option string;
  cb_state : option string;
  cb_amount : option string;
  cb_reg_pay_num : option string
}.

Inductive Request :=
| InvalidJson                    (* request.json() raises JSONDecodeError *)
| Json (data : CallbackData).

Record Response := mkResponse {
  text : string;
  status : Z
}.

Definition server_error : Response := mkResponse "Server error" 500.

Section WithBuiltins.
Context `{Py.Builtins}.

(** The handler with its [try]: a [ValueError] of [float(amount)] or
    [int(user_id)] and a [KeyError] of the plan table all reach the final
    [except Exception], which answers 500.  [amount_rub] is a binary64
    float, compared with the integer prices as Python compares them.
    [Application.builder().token(BOT_TOKEN).build()] does no I/O and
    [main] refuses to start without a token, so it is taken to succeed. *)
Definition handle_callback (request : Request) : M Response :=
  match request with
  | InvalidJson => ret (mkResponse "Invalid JSON" 400)
  | Json data =>
      let user_id := cb_user_id data in
      let status := cb_state data in
      let amount := cb_amount data in
      if negb (Py.present user_id) then ret (mkResponse "user_id is required" 400)
      else if negb (Py.present status) then ret (mkResponse "status is required" 400)
      else if negb (Py.present amount) then ret (mkResponse "amount is required" 400)
      else
        (* all three are non-empty strings from here on *)
        let user_id := default "" user_id in
        let status := default "" status in
        let amount := default "" amount in
        if negb (String.eqb (Py.upper status) "PAYED") then
          ret (mkResponse "Payment not confirmed" 200)
        else
          match Py.float_of_str amount with
          | None => ret server_error
          | Some amount_f =>
              let amount_rub := (amount_f / 100)%float in
              let plan_id :=
                if (amount_rub =? 359)%float then Some "month"
                else if (amount_rub =? 159)%float then Some "week"
                else None in
              match plan_id with
              | None => ret (mkResponse "Unknown payment amount" 400)
              | Some plan_id =>
                  match Py.dict_get SUBSCRIPTION_PLANS plan_id,
                        Py.int_of_str user_id with
                  | Some plan, Some uid =>
                      set_subscription uid (days plan) "paid";;
                      sent ← send_subscription_notification uid plan_id false;
                      match sent with
                      | Some _ => ret (mkResponse "OK" 200)
                      | None => ret server_error
                      end
                  | _, _ => ret server_error
                  end
              end
          end
  end.

(** *** The content branches of [handle_text] (lines 612 to 699)

    They are reached when no earlier branch of [handle_text] fires: no
    broadcast or message edit is pending and the text is none of the
    admin or information buttons. *)

Record Reply := mkReply {
  reply_text : string;
  reply_keyboard : list (list string);
  reply_photo : option string
}.

Definition subscribers_only_text : string :=
  "⭐️ Эта функция доступна только подписчикам!" +:+ Py.nl +:+
  "Оформи подписку или активируй пробный период:".

(** The block at lines 613 to 624, repeated word for word at 661 to 672:
    [Some] is the reply that ends the handler, [None] lets it go on to
    the content.  The [and] does not ask the store about user
    7254288870. *)
Definition subscription_gate (user_id : Z) : M (option Reply) :=
  blocked ← (if negb (user_id =? 7254288870)
             then is_active ← has_active_subscription user_id; ret (negb is_active)
             else ret false);
  if (blocked : bool) then
    let keyboard := [ [buy_button]; [back_button] ] in
    trial ← can_use_trial user_id;
    let keyboard := if (trial : bool) then [trial_button] :: keyboard else keyboard in
    ret (Some (mkReply subscribers_only_text keyboard None))
  else ret None.

Definition sign_label (entry : string * (string * string)) : string :=
  let '(sign, (_, emoji)) := entry in emoji +:+ " " +:+ Py.title sign.

Fixpoint chunks3 {A} (l : list A) : list (list A) :=
  match l with
  | a :: b :: c :: rest => [a; b; c] :: chunks3 rest
  | [] => []
  | short => [short]
  end.

Definition sign_menu : Reply :=
  mkReply "Выбери знак зодиака:"
          (chunks3 (List.map sign_label HoroscopeParser.zodiac_signs) ++ [[back_button]])
          None.

Definition back_only : list (list string) := [[back_button]].

(** [open(image_path, 'rb')] raises when the file is missing, which the
    [except] of the tarot branch turns into the failure reply. *)
Definition tarot_reply (exists_on_disk : string -> bool)
           (tarot : string * string * option string) : Reply :=
  let '(title, desc, image_path) := tarot in
  let caption :=
    "🎴 *Карта Таро дня*" +:+ Py.nl +:+ Py.nl +:+ "✨" +:+ title +:+ "✨" +:+
    Py.nl +:+ Py.nl +:+ desc in
  if Py.present image_path then
    let path := default "" image_path in
    if exists_on_disk path then mkReply caption back_only (Some path)
    else mkReply "❌ Не удалось получить карту Таро. Попробуйте позже." back_only None
  else
    mkReply (caption +:+ Py.nl +:+ Py.nl +:+ "(Изображение недоступно)") back_only None.

Definition horoscope_reply (entry : string * (string * string)) (horoscope : string)
  : Reply :=
  let '(sign, (_, emoji)) := entry in
  if Py.truthy horoscope && negb (Py.contains "Извините" horoscope) then
    mkReply ("🌟✨ *Гороскоп для " +:+ Py.title sign +:+ "* ✨🌟" +:+ Py.nl +:+ Py.nl +:+
             "🌙 " +:+ horoscope +:+ " 🌙" +:+ Py.nl +:+ Py.nl +:+
             "🌈 Удачного дня! 🌞 *" +:+ emoji +:+ "*")
            back_only None
  else mkReply "❌ Гороскоп не найден. Попробуй позже." back_only None.

(** [None]: the text is not a content request and [handle_text] falls
    through to its later branches.  The [find] is both the [any(...)]
    that guards the second branch and the [next(...)] that picks the
    sign: they run the same test over the same dict. *)
Definition handle_text_content
           (exists_on_disk : string -> bool)
           (tarot_net : nat -> HoroscopeParser.Fetched HoroscopeParser.TarotSoup)
           (horoscope_net : nat -> HoroscopeParser.Fetched HoroscopeParser.HoroscopeSoup)
           (text : string) (user_id : Z) : M (option Reply) :=
  if String.eqb text horoscope_button || String.eqb text tarot_button then
    gate ← subscription_gate user_id;
    match gate with
    | Some denial => ret (Some denial)
    | None =>
        if Py.contains "Гороскоп" text then ret (Some sign_menu)
        else
          let tarot := fst (HoroscopeParser.get_tarot exists_on_disk tarot_net) in
          ret (Some (tarot_reply exists_on_disk tarot))
    end
  else
    match List.find (fun entry => Py.contains (sign_label entry) text)
                    HoroscopeParser.zodiac_signs with
    | Some entry =>
        gate ← subscription_gate user_id;
        match gate with
        | Some denial => ret (Some denial)
        | None =>
            let horoscope := fst (HoroscopeParser.get_horoscope horoscope_net (fst entry)) in
            ret (Some (horoscope_reply entry horoscope))
        end
    | None => ret None
    end.

End WithBuiltins.

End Bot.

(** ** The selection rule in the specification's words, and example inputs *)

Module Examples.
Import UserDB HoroscopeParser.

(** The specification's reading of the selector fallback: the first
    selector, in list order, whose match has a stripped text of more than
    50 characters. *)
Definition first_match_over_50 `{Py.Builtins} (soup : HoroscopeSoup) : option string :=
  head (List.filter (fun text => 50 <? Py.len text)
                    (List.map Py.strip (omap soup possible_selectors))).

Definition long_text : string :=
  "Сегодня звезды советуют вам не спешить с решениями и больше слушать близких.".

(** A page whose first paragraph is a short banner carrying the first
    selector's class, followed by an article with the real text:
    [<p class=x_5yHoW>Реклама</p><article><p>...</p></article>]. *)
Definition banner_first_soup : HoroscopeSoup :=
  fun selector =>
    if String.eqb selector (class_selector "p" "_5yHoW") then Some "Реклама"
    else if String.eqb selector "article p" then Some long_text
    else if String.eqb selector "p" then Some "Реклама"
    else None.

Definition fool_page : TarotSoup :=
  mkTarotSoup (Some "Карта Таро сегодня: Шут")
              (Some ["Начало пути."; " "; "Доверьтесь случаю."]).

(** Bodies of [POST /callback]. *)
Definition paid_week : Bot.CallbackData :=
  Bot.mkCallbackData (Some "42") (Some "PAYED") (Some "15900") (Some "A-1").

Definition failed_with_amount : Bot.CallbackData :=
  Bot.mkCallbackData (Some "42") (Some "FAILED") (Some "15900") (Some "A-2").

Definition failed_without_amount : Bot.CallbackData :=
  Bot.mkCallbackData (Some "42") (Some "FAILED") None None.

(** Paid callbacks with a field that does not read as a number. *)
Definition paid_amount_abc : Bot.CallbackData :=
  Bot.mkCallbackData (Some "42") (Some "PAYED") (Some "abc") (Some "A-3").

Definition paid_user_abc : Bot.CallbackData :=
  Bot.mkCallbackData (Some "abc") (Some "PAYED") (Some "15900") (Some "A-4").

Definition nothing_on_disk : string -> bool := fun _ => false.

Definition always {A} (a : A) : nat -> A := fun _ => a.

Definition steady_clock : nat -> Z := fun n => 1000 + Z.of_nat n.

Definition empty_world : World := mkWorld ∅ ∅ steady_clock 0.

(** A clock that starts at noon of 2025-01-01, day 739251 after
    0001-01-01, and advances one second a reading. *)
Definition clock_2025 : nat -> Z :=
  fun n => 739251 * 86400000000 + 43200000000 + 1000000 * Z.of_nat n.

Definition world_2025 : World := mkWorld ∅ ∅ clock_2025 0.

(** User 42 holds a paid subscription that ran out at time 100. *)
Definition lapsed_user : User :=
  mkUser (Some "tadashi") (mkSubscription true (Some 100) (Some "paid") (Some 0) false) 0.

Definition lapsed_world : World :=
  mkWorld {[ "42" := lapsed_user ]} {[ "42" := lapsed_user ]} steady_clock 0.

End Examples.

(** ** The template store ([class MessageManager]) *)

Module MessageManager.

Record Store := mkStore {
  messages : gmap string string;              (* self.messages *)
  messages_file : option (gmap string string) (* messages.json, if it exists *)
}.

(** [_load]: a missing file gives the empty dict and creates nothing. *)
Definition _load (file : option (gmap string string)) : Store :=
  mkStore (default ∅ file) file.

(** [_save] catches every exception of the write and only logs it:
    [write_ok] says whether the write went through. *)
Definition _save (write_ok : bool) (s : Store) : Store :=
  if write_ok then mkStore (messages s) (Some (messages s)) else s.

(** [get(key, default)]; the default of [default] is the empty string. *)
Definition get (s : Store) (key : string) (default_text : string) : string :=
  default default_text (messages s !! key).

Definition set (write_ok : bool) (key value : string) (s : Store) : Store :=
  _save write_ok (mkStore (<[key := value]> (messages s)) (messages_file s)).

End MessageManager.

(** ** The handlers of the bot around the store

    Calls to the Telegram API that the code does not guard with a [try] are
    taken to succeed; the ones it guards have their outcome as a parameter. *)

Module Controller.
Import UserDB Bot.

(** [UserDB.__init__]: the table is read from the file, and a missing file
    is created from the empty table. *)
Definition load_users (file : option (gmap string User)) (clock : nat -> Z) : World :=
  match file with
  | Some table => mkWorld table table clock 0
  | None => snd (_save (mkWorld ∅ ∅ clock 0))
  end.

(** The stored [active] flag of a user. *)
Definition active_of (w : World) (user_id : Z) : bool :=
  match users w !! pretty user_id with
  | Some u => active (subscription u)
  | None => false
  end.

Record Channel := mkChannel {
  channel_id : string;
  channel_url : string
}.

(** The configuration and the membership oracle of one handler run:
    [get_chat_member chat_id user_id] is the member's status, or [None]
    when the call raises. *)
Record Env := mkEnv {
  ADMIN_IDS : list string;
  CHANNELS : list Channel;
  get_chat_member : string -> Z -> option string
}.

Inductive Button :=
| UrlButton (label url : string)
| CallbackButton (label data : string).

Inductive Markup :=
| NoMarkup
| ReplyKeyboard (rows : list (list string))
| InlineKeyboard (rows : list (list Button)).

Record Message := mkMessage {
  message_text : string;
  message_markup : Markup;
  parse_mode : option string
}.

(** What a handler does on the chat, in program order. *)
Inductive Action :=
| ReplyText (m : Message)
| EditText (m : Message)
| SendMessage (chat_id : string) (m : Message)
| AnswerQuery
| Pause (milliseconds : Z).

(** [context.user_data] of the user who wrote. *)
Record UserData := mkUserData {
  awaiting_broadcast : bool;
  editing_message : option string;
  payment_url : option string;
  pending_plan : option string
}.

Definition back_keyboard : Markup := ReplyKeyboard [[back_button]].

Definition chat_id_of (channel : Channel) : string :=
  let id := channel_id channel in
  if String.prefix "-100" id || String.prefix "@" id then id else "@" +:+ id.

Definition member_statuses : list string := ["member"; "administrator"; "creator"].

(** The loop over [CHANNELS], with the chats it asked about. *)
Fixpoint channels_loop (get_member : string -> Z -> option string) (user_id : Z)
         (channels : list Channel) : bool * list string :=
  match channels with
  | [] => (true, [])
  | channel :: rest =>
      let chat_id := chat_id_of channel in
      match get_member chat_id user_id with
      | Some status =>
          if existsb (String.eqb status) member_statuses then
            let (r, asked) := channels_loop get_member user_id rest in (r, chat_id :: asked)
          else (false, [chat_id])
      | None => (false, [chat_id])
      end
  end.

Definition check_channel_subscription (env : Env) (user_id : Z) : bool * list string :=
  if is_admin (ADMIN_IDS env) user_id then (true, [])
  else channels_loop (get_chat_member env) user_id (CHANNELS env).

Definition default_start_message : string :=
  "Привет! Я твой помощник по Таро и психологии.".

Definition subscribe_prompt (env : Env) : Message :=
  mkMessage
    ("⚠️ Подпишись на каналы:" +:+ Py.nl +:+ "1. Подпишись на все" +:+ Py.nl +:+
     "2. Нажми «Проверить»")
    (InlineKeyboard
       (List.map (fun ch => [UrlButton "📢 Подписаться" (channel_url ch)])
                 (List.filter (fun ch => Py.truthy (channel_url ch)) (CHANNELS env))
        ++ [[CallbackButton "🔄 Проверить" "check_sub"]]))
    None.

Definition start (env : Env) (msgs : MessageManager.Store)
           (user_id : Z) (uname : option string) : M (list Action) :=
  if negb (fst (check_channel_subscription env user_id)) then
    ret [ReplyText (subscribe_prompt env)]
  else
    add_user user_id uname;;
    menu ← get_main_menu user_id;
    ret [ReplyText (mkMessage (MessageManager.get msgs "start_message" default_start_message)
                              (ReplyKeyboard menu) None)].

(** [button_callback]: the [else] branch builds the coroutine of
    [query.edit_message_text] without awaiting it, so nothing is sent. *)
Definition button_callback (env : Env) (msgs : MessageManager.Store)
           (data : string) (user_id : Z) (uname : option string) : M (list Action) :=
  if String.eqb data "check_sub" then
    if fst (check_channel_subscription env user_id) then
      add_user user_id uname;;
      menu ← get_main_menu user_id;
      ret [AnswerQuery;
           EditText (mkMessage "✅ Подписка подтверждена!" NoMarkup None);
           SendMessage (pretty user_id)
             (mkMessage (MessageManager.get msgs "start_message" default_start_message)
                        (ReplyKeyboard menu) None)]
    else ret [AnswerQuery]
  else ret [AnswerQuery].

(** *** Admin: templates *)

Definition message_map : list (string * string) :=
  [ ("📝 Приветственное сообщение", "start_message");
    ("📝 Текст расклада", "select_spread");
    ("📝 Текст психологии", "how_spread_works") ].

Definition with_editing (key : option string) (ud : UserData) : UserData :=
  mkUserData (awaiting_broadcast ud) key (payment_url ud) (pending_plan ud).

Definition with_awaiting (flag : bool) (ud : UserData) : UserData :=
  mkUserData flag (editing_message ud) (payment_url ud) (pending_plan ud).

Definition handle_edit_message (env : Env) (write_ok : bool) (text : string) (user_id : Z)
           (msgs : MessageManager.Store) (ud : UserData)
  : list Action * MessageManager.Store * UserData :=
  if negb (is_admin (ADMIN_IDS env) user_id) then ([], msgs, ud)
  else
    match Py.dict_get message_map text with
    | Some key =>
        let current_text := MessageManager.get msgs key "" in
        ([ReplyText (mkMessage
                       ("📝 Редактирование '" +:+ text +:+ "':" +:+ Py.nl +:+ Py.nl +:+
                        "Текущий текст:" +:+ Py.nl +:+ current_text +:+ Py.nl +:+ Py.nl +:+
                        "Отправьте новый текст:")
                       back_keyboard None)],
         msgs, with_editing (Some key) ud)
    | None =>
        if Py.present (editing_message ud) then
          let key := default "" (editing_message ud) in
          ([ReplyText (mkMessage ("✅ Сообщение '" +:+ key +:+ "' обновлено!")
                                 back_keyboard None)],
           MessageManager.set write_ok key text msgs, with_editing None ud)
        else ([], msgs, ud)
    end.

(** The information branch of [handle_text] (lines 601 to 610); [None]
    when the text is neither of the two buttons. *)
Definition handle_text_info (msgs : MessageManager.Store) (text : string)
  : option (list Action) :=
  if String.eqb text "✨ Выбрать расклад/узнать прайс"
     || String.eqb text "Психология: как проходит/прайс💜" then
    let key := if Py.contains "расклад" text then "select_spread" else "how_spread_works" in
    Some [ReplyText (mkMessage (MessageManager.get msgs key "")
                               (ReplyKeyboard [["ЗАПИСАТЬСЯ"; "СПРОСИТЬ"]; [back_button]])
                               None)]
  else None.

(** *** Admin: broadcast *)

Definition admin_broadcast (env : Env) (user_id : Z) (ud : UserData)
  : list Action * UserData :=
  if negb (is_admin (ADMIN_IDS env) user_id) then ([], ud)
  else
    ([ReplyText (mkMessage
                   ("📢 Введите текст для рассылки:" +:+ Py.nl +:+ Py.nl +:+
                    "Поддерживается базовая HTML-разметка:" +:+ Py.nl +:+
                    "• <b>жирный текст</b>" +:+ Py.nl +:+
                    "• <i>курсив</i>" +:+ Py.nl +:+
                    "• <a href='ссылка'>текст ссылки</a>")
                   (ReplyKeyboard [["❌ Отменить"]]) None)],
     with_awaiting true ud).

Definition progress_text (success_count fail_count : Z) : string :=
  "📢 Отправлено: " +:+ pretty success_count +:+ Py.nl +:+
  "❌ Ошибок: " +:+ pretty fail_count.

Definition finished_text (success_count fail_count : Z) : string :=
  "📢 Рассылка завершена" +:+ Py.nl +:+ Py.nl +:+
  "✅ Успешно отправлено: " +:+ pretty success_count +:+ Py.nl +:+
  "❌ Ошибок: " +:+ pretty fail_count.

(** The loop of [handle_broadcast_message].  [send_ok chat_id] says whether
    [send_message] to that chat goes through, [edit_ok n] whether the
    progress edit at [n] successes does; a failure of either is counted in
    [fail_count] and skips the rest of the [try], pause included. *)
Fixpoint broadcast_loop (send_ok : string -> bool) (edit_ok : Z -> bool)
         (broadcast_text : string) (recipients : list (string * User))
         (success_count fail_count : Z) : Z * Z * list Action :=
  match recipients with
  | [] => (success_count, fail_count, [])
  | (user_id, _) :: rest =>
      let send := SendMessage user_id (mkMessage broadcast_text NoMarkup (Some "HTML")) in
      if send_ok user_id then
        let success_count := success_count + 1 in
        if success_count mod 10 =? 0 then
          let edit := EditText (mkMessage (progress_text success_count fail_count)
                                          NoMarkup None) in
          if edit_ok success_count then
            let '(s, f, acts) :=
              broadcast_loop send_ok edit_ok broadcast_text rest success_count fail_count in
            (s, f, send :: edit :: Pause 50 :: acts)
          else
            let '(s, f, acts) :=
              broadcast_loop send_ok edit_ok broadcast_text rest success_count
                             (fail_count + 1) in
            (s, f, send :: edit :: acts)
        else
          let '(s, f, acts) :=
            broadcast_loop send_ok edit_ok broadcast_text rest success_count fail_count in
          (s, f, send :: Pause 50 :: acts)
      else
        let '(s, f, acts) :=
          broadcast_loop send_ok edit_ok broadcast_text rest success_count (fail_count + 1) in
        (s, f, send :: acts)
  end.

(** The chats a run of actions sends a message to, in order. *)
Definition sent_to (acts : list Action) : list string :=
  omap (fun a => match a with SendMessage chat_id _ => Some chat_id | _ => None end) acts.

Definition handle_broadcast_message (send_ok : string -> bool) (edit_ok : Z -> bool)
           (text : string) (user_id : Z) (ud : UserData) : M (list Action * UserData) :=
  if negb (awaiting_broadcast ud) then ret ([], ud)
  else if String.eqb text "❌ Отменить" then
    menu ← get_main_menu user_id;
    ret ([ReplyText (mkMessage "❌ Рассылка отменена." (ReplyKeyboard menu) None)],
         with_awaiting false ud)
  else
    recipients ← get_all_users;
    let '(success_count, fail_count, acts) :=
      broadcast_loop send_ok edit_ok text recipients 0 0 in
    ret (ReplyText (mkMessage "📢 Начинаю рассылку..." NoMarkup None)
           :: acts
           ++ [EditText (mkMessage (finished_text success_count fail_count)
                                   back_keyboard None)],
         with_awaiting false ud).

(** The first two tests of [handle_text] (lines 579 to 584): a pending
    broadcast takes every text, then a pending edit or one of the three
    template buttons goes to [handle_edit_message].  [None] when the
    handler goes on to its later branches. *)
Definition handle_text_modal (env : Env) (send_ok : string -> bool) (edit_ok : Z -> bool)
           (write_ok : bool) (text : string) (user_id : Z)
           (msgs : MessageManager.Store) (ud : UserData)
  : M (option (list Action * MessageManager.Store * UserData)) :=
  if awaiting_broadcast ud then
    r ← handle_broadcast_message send_ok edit_ok text user_id ud;
    ret (Some (fst r, msgs, snd r))
  else if Py.present (editing_message ud)
          || existsb (String.eqb text) (List.map fst message_map) then
    ret (Some (handle_edit_message env write_ok text user_id msgs ud))
  else ret None.

(** *** The last branches of [handle_text] (lines 701 to 787) *)

(** What [ckassa.create_payment] gives: an exception with its text, a dict
    with a [paymentUrl], or anything else. *)
Inductive Payment :=
| PaymentRaised (error : string)
| PaymentLink (url : string)
| PaymentRefused.

Definition per_day_of (plan_id : string) : string :=
  default "" (per_day <$> Py.dict_get SUBSCRIPTION_PLANS plan_id).

Definition week_button : string := "💎 7 дней за 159р (" +:+ per_day_of "week" +:+ ")".
Definition month_button : string := "💎 30 дней за 359р (" +:+ per_day_of "month" +:+ ")".

Definition trial_used_keyboard : Markup :=
  ReplyKeyboard [[buy_button]; [back_button]].

Section WithBuiltins.
Context `{Py.Builtins}.

(** The trial button (lines 708 to 724). *)
Definition activate_trial (user_id : Z) : M (list Action) :=
  eligible ← can_use_trial user_id;
  if (eligible : bool) then
    set_subscription user_id 3 "trial";;
    _ ← send_subscription_notification user_id "" true;
    menu ← get_main_menu user_id;
    ret [ReplyText (mkMessage
                      "✨ Пробный период активирован! Теперь вы можете использовать все функции бота 3 дня."
                      (ReplyKeyboard menu) None)]
  else
    ret [ReplyText (mkMessage
                      "❌ Вы уже использовали пробный период. Оформите подписку для продолжения:"
                      trial_used_keyboard None)].

(** The plan buttons (lines 726 to 773). *)
Definition choose_plan (create_payment : Z -> Z -> string -> Payment)
           (text : string) (user_id : Z) (ud : UserData) : list Action * UserData :=
  let plan_id := if Py.contains "7 дней" text then "week" else "month" in
  match Py.dict_get SUBSCRIPTION_PLANS plan_id with
  | None => ([], ud)
  | Some plan =>
      match create_payment (price plan) user_id plan_id with
      | PaymentLink url =>
          ([ReplyText (mkMessage
                         ("🌟 Подписка на " +:+ period plan +:+ " за " +:+ pretty (price plan) +:+
                          " руб." +:+ Py.nl +:+ "После оплаты вам откроются:" +:+ Py.nl +:+
                          "• Гороскоп" +:+ Py.nl +:+ "• Таро" +:+ Py.nl +:+ "• Предсказания")
                         (InlineKeyboard [[UrlButton "💳 Оформить подписку" url]]) None);
            ReplyText (mkMessage
                         "После оплаты нажмите 'Назад' для проверки статуса и подождите 5 минут что бы оплата прошла⌛"
                         back_keyboard None)],
           mkUserData (awaiting_broadcast ud) (editing_message ud) (Some url) (Some plan_id))
      | PaymentRefused =>
          ([ReplyText (mkMessage
                         "❌ Не удалось создать платеж. Проверьте логи или свяжитесь с @taro_darinsight."
                         back_keyboard None)], ud)
      | PaymentRaised error =>
          ([ReplyText (mkMessage ("❌ Ошибка: " +:+ error +:+ ". Попробуйте позже.")
                                 back_keyboard None)], ud)
      end
  end.

(** The subscription menu (lines 775 to 787). *)
Definition subscription_menu (user_id : Z) : M (list Action) :=
  trial ← can_use_trial user_id;
  let keyboard := if (trial : bool) then [[trial_button]] else [] in
  ret [ReplyText (mkMessage
                    ("✨ Подписка открывает:" +:+ Py.nl +:+ "• Гороскоп" +:+ Py.nl +:+ "• Таро" +:+
                     Py.nl +:+ "• Предсказания" +:+ Py.nl +:+ "Выбери план:")
                    (ReplyKeyboard (keyboard ++ [[week_button]; [month_button]; [back_button]]))
                    None)].

(** Lines 701 to 787 in order; a text that matches none of the tests gets
    no answer. *)
Definition handle_text_tail (create_payment : Z -> Z -> string -> Payment)
           (text : string) (user_id : Z) (ud : UserData) : M (list Action * UserData) :=
  if Py.contains "ЗАПИСАТЬСЯ" text || Py.contains "СПРОСИТЬ" text then
    ret ([ReplyText (mkMessage "Для связи: https://t.me/taro_darinsight" back_keyboard None)],
         ud)
  else if String.eqb text trial_button then
    acts ← activate_trial user_id; ret (acts, ud)
  else if Py.contains "💎 7 дней за 159р" text || Py.contains "💎 30 дней за 359р" text then
    ret (choose_plan create_payment text user_id ud)
  else if Py.contains "Подписка" text || Py.contains "💎" text then
    acts ← subscription_menu user_id; ret (acts, ud)
  else ret ([], ud).

(** *** [HoroscopeParser.test_horoscopes] *)

(** The self-test run by the constructor: [net sign] is the network as the
    fetch for that sign meets it.  The result is [test_results]: the signs
    that passed and the signs that failed, in dict order. *)
Fixpoint test_loop (net : string -> nat -> HoroscopeParser.Fetched HoroscopeParser.HoroscopeSoup)
         (signs : list string) : list string * list string :=
  match signs with
  | [] => ([], [])
  | sign :: rest =>
      let horoscope := fst (HoroscopeParser.get_horoscope (net sign) sign) in
      let (success, failed) := test_loop net rest in
      if negb (Py.contains "Извините" horoscope) && (100 <? Py.len horoscope)
      then (sign :: success, failed)
      else (success, sign :: failed)
  end.

Definition test_horoscopes
           (net : string -> nat -> HoroscopeParser.Fetched HoroscopeParser.HoroscopeSoup)
  : list string * list string :=
  test_loop net (List.map fst HoroscopeParser.zodiac_signs).

End WithBuiltins.

(** The shape of the trace of a fetch: [n] failed rounds, each followed by
    the pause, then one last round. *)
Definition rounds (url : string) (n : nat) : list HoroscopeParser.Event :=
  (concat (replicate n [HoroscopeParser.Get url; HoroscopeParser.Sleep 5])
     ++ [HoroscopeParser.Get url])%list.

(** *** The polling loop of [main] *)

Inductive PollOutcome :=
| Polled          (* run_polling returned *)
| Conflict        (* telegram.error.Conflict *)
| OtherError.     (* any other exception *)

Inductive MainEvent :=
| GetWebhookInfo
| DeleteWebhook
| RunPolling
| SleepSeconds (seconds : Z).

Inductive MainResult :=
| Returned
| Exit (code : Z).

(** [for attempt in range(3): ... else: sys.exit(1)]. *)
Fixpoint polling_loop (poll : nat -> PollOutcome) (attempts : list nat)
  : MainResult * list MainEvent :=
  match attempts with
  | [] => (Exit 1, [])
  | attempt :: rest =>
      match poll attempt with
      | Polled => (Returned, [RunPolling])
      | Conflict =>
          let (r, tr) := polling_loop poll rest in
          (r, RunPolling :: DeleteWebhook :: SleepSeconds (2 ^ Z.of_nat attempt) :: tr)
      | OtherError =>
          if (attempt <? 2)%nat then
            let (r, tr) := polling_loop poll rest in
            (r, RunPolling :: SleepSeconds (2 ^ Z.of_nat attempt) :: tr)
          else (Exit 1, [RunPolling])
      end
  end.

(** [webhook] is what [get_webhook_info] gives: [None] when it raises, the
    url otherwise (empty when no webhook is set).  The exception of a
    failed [delete_webhook] before the loop is caught with it. *)
Definition main (BOT_TOKEN : option string) (webhook : option string)
           (poll : nat -> PollOutcome) : MainResult * list MainEvent :=
  if negb (Py.present BOT_TOKEN) then (Exit 1, [])
  else
    let before :=
      match webhook with
      | Some url => if Py.truthy url then [GetWebhookInfo; DeleteWebhook] else [GetWebhookInfo]
      | None => [GetWebhookInfo]
      end in
    let (r, tr) := polling_loop poll (seq 0 3) in
    (r, (before ++ tr)%list).

End Controller.

(** ** Inputs for running the handlers *)

Module Scenarios.
Import UserDB Bot Controller.

(** Two channels, one given by name and one by numeric id without a join
    link; user 42 is a member everywhere, user 43 has left, and the lookup
    of anybody else fails. *)
Definition env : Env :=
  mkEnv ["1"]
        [mkChannel "tarot_news" "https://t.me/tarot_news"; mkChannel "-1001234" ""]
        (fun chat_id user_id =>
           if user_id =? 42 then Some "member"
           else if user_id =? 43 then Some "left"
           else None).

Definition no_templates : MessageManager.Store := MessageManager._load None.

Definition idle : UserData := mkUserData false None None None.

Definition broadcasting : UserData := mkUserData true None None None.

(** Every delivery goes through except the one to user 42. *)
Definition all_but_42 : string -> bool := fun chat_id => negb (String.eqb chat_id "42").

Definition gateway_down : Z -> Z -> string -> Payment := fun _ _ _ => PaymentRefused.

End Scenarios.

(** * Properties of the user table *)

Section UserDBFacts.
Import UserDB.

#[local] Ltac run :=
  unfold exec, eval, has_active_subscription, set_subscription, can_use_trial,
    add_user, get_expiry, get_subscription_start, get_all_users,
    format_remaining_time, get_users, modify_users, datetime_now, _save, ret,
    mbind, mret, M_bind, M_ret; simpl.

#[local] Ltac map_lookups Hk :=
  apply map_eq; intros j;
  match goal with
  | |- context [alter _ ?k _] =>
      destruct (decide (k = j)) as [<-|Hne];
      [ rewrite ?lookup_alter_eq, ?lookup_insert_eq, ?Hk; reflexivity
      | rewrite ?lookup_alter_ne, ?lookup_insert_ne by assumption; reflexivity ]
  end.

(** Altering a key that is bound rewrites the binding. *)
Lemma alter_bound (f : User -> User) (k : string) (u : User) (m : gmap string User) :
  m !! k = Some u -> alter f k m = <[k := f u]> m.
Proof.
  intros Hk. apply map_eq. intros j. destruct (decide (k = j)) as [<-|Hne].
  - rewrite lookup_alter_eq, lookup_insert_eq, Hk. reflexivity.
  - rewrite lookup_alter_ne, lookup_insert_ne by assumption. reflexivity.
Qed.

(** Effect of [add_user] on the table and the clock. *)
Lemma add_user_spec (user_id : Z) (uname : option string) (w : World) :
  add_user user_id uname w =
  match users w !! pretty user_id with
  | Some _ => (tt, w)
  | None =>
      let us := <[pretty user_id := mkUser uname default_subscription (clock w (ticks w))]> (users w) in
      (tt, mkWorld us us (clock w) (S (ticks w)))
  end.
Proof. run. destruct (users w !! pretty user_id); reflexivity. Qed.

(** Effect of [set_subscription]: the record that is updated is the stored
    one, or the fresh default one. *)
Lemma set_subscription_spec (user_id days : Z) (sub_type : string) (w : World) :
  let k := pretty user_id in
  let t := match users w !! k with Some _ => ticks w | None => S (ticks w) end in
  let u := match users w !! k with
           | Some u => u
           | None => mkUser None default_subscription (clock w (ticks w))
           end in
  let s := mkSubscription true (Some (clock w t + timedelta days)) (Some sub_type)
             (Some (clock w (S t)))
             (if String.eqb sub_type "trial" then true else trial_used (subscription u)) in
  let us := <[k := mkUser (username u) s (last_active u)]> (users w) in
  set_subscription user_id days sub_type w = (tt, mkWorld us us (clock w) (S (S t))).
Proof.
  run. destruct (users w !! pretty user_id) as [u|] eqn:Hk; simpl; rewrite ?Hk; simpl;
    destruct (String.eqb sub_type "trial"); simpl; do 2 f_equal; map_lookups Hk.
Qed.

(** Effect of [has_active_subscription]. *)
Lemma has_active_subscription_spec (user_id : Z) (w : World) :
  has_active_subscription user_id w =
  match users w !! pretty user_id with
  | None => (false, w)
  | Some u =>
      if active (subscription u) then
        match expires (subscription u) with
        | None => (true, w)
        | Some e =>
            if e <? clock w (ticks w) then
              let us := <[pretty user_id := on_subscription set_inactive u]> (users w) in
              (false, mkWorld us us (clock w) (S (ticks w)))
            else (true, mkWorld (users w) (db_file w) (clock w) (S (ticks w)))
        end
      else (false, w)
  end.
Proof.
  run. destruct (users w !! pretty user_id) as [u|] eqn:Hk; [|reflexivity].
  destruct (active (subscription u)); simpl; [|reflexivity].
  destruct (expires (subscription u)) as [e|]; simpl; [|reflexivity].
  destruct (e <? clock w (ticks w)); simpl; [|reflexivity].
  erewrite alter_bound by exact Hk. reflexivity.
Qed.

Lemma can_use_trial_spec (user_id : Z) (w : World) :
  can_use_trial user_id w =
  match users w !! pretty user_id with
  | Some u => (negb (trial_used (subscription u)), w)
  | None =>
      let us := <[pretty user_id := mkUser None default_subscription (clock w (ticks w))]> (users w) in
      (true, mkWorld us us (clock w) (S (ticks w)))
  end.
Proof.
  run. destruct (users w !! pretty user_id) as [u|] eqn:Hk; simpl;
    rewrite ?Hk; simpl; rewrite ?lookup_insert_eq; reflexivity.
Qed.


Lemma readers_keep_users (op : Op) (w : World) :
  match op with
  | GetExpiry _ | GetSubscriptionStart _ | GetAllUsers | FormatRemainingTime _ => True
  | _ => False
  end ->
  users (run_op op w) = users w.
Proof.
  destruct op as [ | | | uid | uid | | [e|] | ]; try contradiction; intros _; simpl; run.
  - destruct (users w !! pretty uid) as [u|]; [destruct (active (subscription u))|]; reflexivity.
  - destruct (users w !! pretty uid) as [u|]; [destruct (active (subscription u))|]; reflexivity.
  - reflexivity.
  - destruct (e <? _); [reflexivity|]. destruct (0 <? _); reflexivity.
  - reflexivity.
Qed.

(** The flag after one call, in terms of the flag before it. *)
Lemma trial_used_step (op : Op) (w : World) (user_id : Z) :
  trial_used_of (run_op op w) user_id =
  match op with
  | SetSubscription user_id' _ sub_type =>
      (bool_decide (user_id' = user_id) && String.eqb sub_type "trial")
      || trial_used_of w user_id
  | _ => trial_used_of w user_id
  end.
Proof.
  unfold trial_used_of.
  destruct op as [uid' un | uid' d ty | uid' | uid' | uid' | | e | uid'];
    try (rewrite readers_keep_users by exact I; reflexivity); simpl; unfold exec.
  - rewrite add_user_spec.
    destruct (users w !! pretty uid') eqn:Hk'; [reflexivity|]. simpl.
    destruct (decide (uid' = user_id)) as [->|Hne].
    + rewrite lookup_insert_eq, Hk'. reflexivity.
    + rewrite lookup_insert_ne by (intros Heq; apply Hne, (inj pretty), Heq). reflexivity.
  - rewrite set_subscription_spec. simpl.
    destruct (decide (uid' = user_id)) as [->|Hne].
    + rewrite lookup_insert_eq, bool_decide_eq_true_2 by reflexivity. simpl.
      destruct (String.eqb ty "trial"); [reflexivity|].
      destruct (users w !! pretty user_id); reflexivity.
    + rewrite lookup_insert_ne by (intros Heq; apply Hne, (inj pretty), Heq).
      rewrite bool_decide_eq_false_2 by assumption. reflexivity.
  - rewrite has_active_subscription_spec.
    destruct (users w !! pretty uid') as [u|] eqn:Hk'; [|reflexivity].
    destruct (active (subscription u)); [|reflexivity].
    destruct (expires (subscription u)) as [e|]; [|reflexivity].
    destruct (e <? _); [|reflexivity]. simpl.
    destruct (decide (uid' = user_id)) as [->|Hne].
    + rewrite lookup_insert_eq, Hk'. reflexivity.
    + rewrite lookup_insert_ne by (intros Heq; apply Hne, (inj pretty), Heq). reflexivity.
  - rewrite can_use_trial_spec.
    destruct (users w !! pretty uid') as [u|] eqn:Hk'; [reflexivity|]. simpl.
    destruct (decide (uid' = user_id)) as [->|Hne].
    + rewrite lookup_insert_eq, Hk'. reflexivity.
    + rewrite lookup_insert_ne by (intros Heq; apply Hne, (inj pretty), Heq). reflexivity.
Qed.

Lemma trial_used_kept (ops : list Op) (w : World) (user_id : Z) :
  trial_used_of w user_id = true -> trial_used_of (run_ops ops w) user_id = true.
Proof.
  revert w. induction ops as [|op ops IH]; intros w Hw; [exact Hw|].
  simpl. apply IH. rewrite trial_used_step, Hw.
  destruct op; try reflexivity. apply orb_true_r.
Qed.

(** C1. [has_active_subscription] answers false for a record whose [expires]
    lies before the current clock reading, whatever [active] says; when
    [active] was stored as true it stores false in its place and writes
    the table to disk.  It also answers false, changing nothing, for a
    user without a record and for a record with [active] false. *)
Theorem has_active_subscription_lazy_expiry (w : World) (user_id : Z) :
  let k := pretty user_id in
  let now := clock w (ticks w) in
  let r := eval (has_active_subscription user_id) w in
  let w' := exec (has_active_subscription user_id) w in
  (forall u e,
      users w !! k = Some u -> expires (subscription u) = Some e -> e < now ->
      r = false /\
      (active (subscription u) = true ->
       (exists u', users w' !! k = Some u' /\ active (subscription u') = false) /\
       db_file w' = users w'))
  /\ (users w !! k = None -> r = false /\ w' = w)
  /\ (forall u, users w !! k = Some u -> active (subscription u) = false ->
                r = false /\ w' = w).
Proof.
  cbv zeta. unfold eval, exec. rewrite has_active_subscription_spec.
  split; [|split].
  - intros u e Hk He Hlt. rewrite Hk, He.
    apply Z.ltb_lt in Hlt. rewrite Hlt.
    destruct (active (subscription u)); simpl.
    + split; [reflexivity|]. intros _. split; [|reflexivity].
      eexists. rewrite lookup_insert_eq. split; reflexivity.
    + split; [reflexivity|]. intros Hf. discriminate Hf.
  - intros ->. split; reflexivity.
  - intros u -> ->. split; reflexivity.
Qed.

(** At the very instant of expiry the subscription still counts as active:
    the test is [now > expires]. *)
Lemma has_active_subscription_at_expiry_instant (w : World) (user_id : Z) (u : User) :
  users w !! pretty user_id = Some u ->
  active (subscription u) = true ->
  expires (subscription u) = Some (clock w (ticks w)) ->
  eval (has_active_subscription user_id) w = true.
Proof.
  intros Hk Ha He. unfold eval. rewrite has_active_subscription_spec, Hk, Ha, He.
  rewrite Z.ltb_irrefl. reflexivity.
Qed.

(** C10. The lazy-expiry correction rewrites one field of one record: the
    user's [active] becomes false, every other field of that record and
    every other record of the table stay as they were. *)
Theorem lazy_expiry_frame (w : World) (user_id : Z) (u : User) (e : Z) :
  users w !! pretty user_id = Some u ->
  active (subscription u) = true ->
  expires (subscription u) = Some e ->
  e < clock w (ticks w) ->
  let w' := exec (has_active_subscription user_id) w in
  (exists u',
      users w' !! pretty user_id = Some u' /\
      active (subscription u') = false /\
      expires (subscription u') = expires (subscription u) /\
      type (subscription u') = type (subscription u) /\
      start_date (subscription u') = start_date (subscription u) /\
      trial_used (subscription u') = trial_used (subscription u) /\
      username u' = username u /\
      last_active u' = last_active u)
  /\ (forall k, k <> pretty user_id -> users w' !! k = users w !! k)
  /\ (forall other, other <> user_id -> users w' !! pretty other = users w !! pretty other).
Proof.
  intros Hk Ha He Hlt. cbv zeta. unfold exec.
  rewrite has_active_subscription_spec, Hk, Ha, He.
  apply Z.ltb_lt in Hlt. rewrite Hlt. simpl.
  split; [|split].
  - eexists. rewrite lookup_insert_eq. repeat split; simpl; congruence.
  - intros k Hne. apply lookup_insert_ne. congruence.
  - intros other Hne. apply lookup_insert_ne.
    intros Heq. apply Hne. symmetry. apply (inj pretty), Heq.
Qed.

(** Effect of [set_subscription_or_raise]: the call returns exactly when
    the sum of line 85 is a datetime, and it then does what
    [set_subscription] does; when it raises, the user has been added if
    missing and the clock has been read once. *)
Lemma set_subscription_or_raise_spec (user_id days : Z) (sub_type : string) (w : World) :
  let t := match users w !! pretty user_id with
           | Some _ => ticks w | None => S (ticks w) end in
  set_subscription_or_raise user_id days sub_type w =
  match add_days (clock w t) days with
  | Some _ => (Some tt, exec (set_subscription user_id days sub_type) w)
  | None => (None, exec (add_user user_id None;; datetime_now) w)
  end.
Proof.
  cbv zeta. unfold set_subscription_or_raise, exec, set_subscription, add_user,
    get_users, modify_users, datetime_now, _save, ret, mbind, mret, M_bind, M_ret.
  cbn [fst snd users db_file clock ticks].
  destruct (users w !! pretty user_id) as [u|] eqn:Hk; cbn [fst snd users db_file clock ticks];
    rewrite ?Hk; cbn [fst snd users db_file clock ticks].
  - unfold add_days. destruct (_ && _); [|reflexivity].
    cbn [fst snd users db_file clock ticks].
    destruct (String.eqb sub_type "trial"); reflexivity.
  - unfold add_days. destruct (_ && _); [|reflexivity].
    cbn [fst snd users db_file clock ticks].
    destruct (String.eqb sub_type "trial"); reflexivity.
Qed.

(** The day counts the program itself passes (3 for the trial, 7 and 30
    for the plans) cannot overflow while the clock is a datetime at least
    30 days before [datetime_max], that is before December 9999: the call
    then returns and is [set_subscription]. *)
Lemma set_subscription_or_raise_returns
      (user_id days : Z) (sub_type : string) (w : World) :
  let t := match users w !! pretty user_id with
           | Some _ => ticks w | None => S (ticks w) end in
  0 <= clock w t -> clock w t + timedelta 30 <= datetime_max -> 0 <= days <= 30 ->
  set_subscription_or_raise user_id days sub_type w
  = (Some tt, exec (set_subscription user_id days sub_type) w).
Proof.
  cbv zeta. intros Hmin Hmax Hdays. rewrite set_subscription_or_raise_spec. cbv zeta.
  unfold add_days.
  replace (Z.abs days <=? timedelta_max_days) with true
    by (symmetry; apply Z.leb_le; unfold timedelta_max_days; lia).
  replace (0 <=? _ + timedelta days) with true
    by (symmetry; apply Z.leb_le; unfold timedelta; lia).
  replace (_ + timedelta days <=? datetime_max) with true
    by (symmetry; apply Z.leb_le; unfold timedelta in *; lia).
  reflexivity.
Qed.

(** [add_days] gives the sum or nothing. *)
Lemma add_days_sum (now days e : Z) :
  add_days now days = Some e -> e = now + timedelta days.
Proof. unfold add_days. destruct (_ && _); congruence. Qed.

(** Whether it returns or raises, [set_subscription_or_raise] leaves the
    user with a record and with the clock of the world. *)
Lemma set_subscription_or_raise_registers
      (user_id days : Z) (sub_type : string) (w : World) :
  let w1 := exec (set_subscription_or_raise user_id days sub_type) w in
  is_Some (users w1 !! pretty user_id) /\ clock w1 = clock w.
Proof.
  cbv zeta. unfold exec. rewrite set_subscription_or_raise_spec. cbv zeta.
  destruct (add_days _ days); cbn [snd].
  - unfold exec. rewrite set_subscription_spec. cbv zeta. cbn [snd users clock].
    rewrite lookup_insert_eq. split; [eexists; reflexivity|reflexivity].
  - unfold exec, datetime_now, mbind, M_bind. rewrite add_user_spec.
    destruct (users w !! pretty user_id) as [u|] eqn:Hk; cbn [snd users clock];
      rewrite ?lookup_insert_eq, ?Hk; split; [eexists| |eexists|]; reflexivity.
Qed.

(** C9 (amended). The second of two activations of one user returns
    exactly when its clock reading plus its day count is a datetime.  When
    it returns, the stored [expires] is that reading plus the second
    call's days, and the first call's day count plays no part in the
    stored record.  When it raises, the table is as the first call left
    it: the day count that overflowed is not stored. *)
Theorem set_subscription_latest_wins
        (w : World) (user_id days1 days2 : Z) (ty1 ty2 : string) :
  let first := set_subscription_or_raise user_id days1 ty1 in
  let second := set_subscription_or_raise user_id days2 ty2 in
  let w1 := exec first w in
  let now2 := clock w1 (ticks w1) in
  let w2 := exec second w1 in
  (eval second w1 = Some tt <-> add_days now2 days2 = Some (now2 + timedelta days2))
  /\ (eval second w1 = Some tt ->
      (exists u, users w2 !! pretty user_id = Some u /\
                 expires (subscription u) = Some (now2 + timedelta days2))
      /\ (eval first w = Some tt ->
          forall days1',
            eval (set_subscription_or_raise user_id days1' ty1) w = Some tt ->
            users (exec second (exec (set_subscription_or_raise user_id days1' ty1) w))
              !! pretty user_id
            = users w2 !! pretty user_id))
  /\ (eval second w1 = None -> users w2 = users w1 /\ db_file w2 = db_file w1).
Proof.
  cbv zeta.
  set (w1 := exec (set_subscription_or_raise user_id days1 ty1) w).
  destruct (set_subscription_or_raise_registers user_id days1 ty1 w) as [[u1 Hk1] Hc1].
  fold w1 in Hk1, Hc1.
  assert (Hsecond := set_subscription_or_raise_spec user_id days2 ty2 w1).
  cbv zeta in Hsecond. rewrite Hk1 in Hsecond.
  unfold eval.
  change (exec (set_subscription_or_raise user_id days2 ty2) w1)
    with (snd (set_subscription_or_raise user_id days2 ty2 w1)).
  rewrite Hsecond.
  split; [|split].
  - destruct (add_days _ days2) as [e|] eqn:He; cbn [fst].
    + rewrite (add_days_sum _ _ _ He). split; reflexivity.
    + split; discriminate.
  - destruct (add_days _ days2) as [e|] eqn:He; cbn [fst snd]; [intros _|discriminate].
    split.
    + unfold exec. rewrite set_subscription_spec. cbv zeta. cbn [snd users]. rewrite Hk1.
      eexists. rewrite lookup_insert_eq. split; reflexivity.
    + intros Hfirst days1' Hfirst'.
      assert (Hshape : forall d,
        fst (set_subscription_or_raise user_id d ty1 w) = Some tt ->
        exists u us t,
          exec (set_subscription_or_raise user_id d ty1) w = mkWorld us us (clock w) t /\
          us !! pretty user_id = Some u /\
          t = S (S (match users w !! pretty user_id with
                    | Some _ => ticks w | None => S (ticks w) end)) /\
          username u = match users w !! pretty user_id with
                       | Some u => username u | None => None end /\
          last_active u = match users w !! pretty user_id with
                          | Some u => last_active u | None => clock w (ticks w) end /\
          trial_used (subscription u) =
            (if String.eqb ty1 "trial" then true
             else match users w !! pretty user_id with
                  | Some u => trial_used (subscription u) | None => false end)).
      { intros d. unfold exec at 1. rewrite set_subscription_or_raise_spec. cbv zeta.
        destruct (add_days _ d); cbn [fst snd]; [intros _|discriminate].
        unfold exec. rewrite set_subscription_spec. cbv zeta. cbn [snd].
        eexists. eexists. eexists. split; [reflexivity|]. rewrite lookup_insert_eq.
        split; [reflexivity|]. split; [reflexivity|].
        destruct (users w !! pretty user_id); simpl; repeat split; reflexivity. }
      destruct (Hshape days1 Hfirst) as (u & us & t & Hw & Hk & -> & Hn & Hl & Ht).
      destruct (Hshape days1' Hfirst') as (u' & us' & t' & Hw' & Hk' & -> & Hn' & Hl' & Ht').
      subst w1. rewrite Hw in He |- *. cbn [clock ticks users] in He.
      rewrite Hw'. unfold exec at 1. rewrite set_subscription_or_raise_spec. cbv zeta.
      cbn [clock ticks users]. rewrite Hk', He. cbn [snd].
      unfold exec. rewrite !set_subscription_spec. cbv zeta. cbn [snd users clock ticks].
      rewrite Hk, Hk', !lookup_insert_eq, Hn, Hn', Hl, Hl', Ht, Ht'. reflexivity.
  - destruct (add_days _ days2) as [e|] eqn:He; cbn [fst snd]; [discriminate|intros _].
    unfold exec, datetime_now, mbind, M_bind. rewrite add_user_spec, Hk1.
    cbn [snd users db_file]. split; reflexivity.
Qed.


End UserDBFacts.

(** * Properties of the scraper *)

Section ParserFacts.
Import HoroscopeParser.
Context `{Py.Builtins}.

Lemma select_loop_hit (soup : HoroscopeSoup) (selectors : list string)
      (cur : option string) (selector : string) :
  List.find (fun sel => stripped_nonempty (soup sel)) selectors = Some selector ->
  select_loop soup selectors cur = soup selector.
Proof.
  revert cur. induction selectors as [|sel rest IH]; intros cur Hf; [discriminate Hf|].
  simpl in *. destruct (stripped_nonempty (soup sel)).
  - injection Hf as <-. reflexivity.
  - apply IH, Hf.
Qed.

Lemma select_loop_miss (soup : HoroscopeSoup) (selectors : list string)
      (cur : option string) :
  List.find (fun sel => stripped_nonempty (soup sel)) selectors = None ->
  stripped_nonempty cur = false ->
  stripped_nonempty (select_loop soup selectors cur) = false.
Proof.
  revert cur. induction selectors as [|sel rest IH]; intros cur Hf Hc; [exact Hc|].
  simpl in *. destruct (stripped_nonempty (soup sel)) eqn:Hs; [discriminate Hf|].
  apply IH; assumption.
Qed.

Lemma accepted_empty (p : option string) :
  stripped_nonempty p = false -> accepted p = None.
Proof.
  destruct p as [text|]; [|reflexivity]. simpl. intros ->. reflexivity.
Qed.

Lemma accepted_nonempty (text : string) :
  stripped_nonempty (Some text) = true ->
  accepted (Some text) =
  if 50 <? Py.len (Py.strip text) then Some (Py.strip text) else None.
Proof. simpl. intros ->. reflexivity. Qed.

(** What one successful fetch gives, in terms of the first selector with
    a non-empty match. *)
Lemma horoscope_document (net : nat -> Fetched HoroscopeSoup) (url : string)
      (soup : HoroscopeSoup) (rest : list nat) (attempt : nat) :
  net attempt = Document soup ->
  horoscope_attempts net url (attempt :: rest) =
  (match List.find (fun sel => stripped_nonempty (soup sel)) possible_selectors with
   | Some selector =>
       let text := Py.strip (default "" (soup selector)) in
       if 50 <? Py.len text then text else not_found_text
   | None => not_found_text
   end, [Get url]).
Proof.
  intros Hnet. cbn [horoscope_attempts]. rewrite Hnet.
  destruct (List.find _ possible_selectors) as [selector|] eqn:Hf.
  - rewrite (select_loop_hit _ _ _ _ Hf).
    apply find_some in Hf as [_ Hs].
    destruct (soup selector) as [text|]; [|discriminate Hs].
    rewrite (accepted_nonempty _ Hs). cbn [default].
    destruct (50 <? _); reflexivity.
  - rewrite accepted_empty; [reflexivity|].
    apply select_loop_miss; [exact Hf|reflexivity].
Qed.

(** C7 (amended). For a sign of the table and the first page that is
    fetched (earlier attempts, if any, having failed on the network), the
    selectors are tried in list order up to the first one whose match has a
    non-empty stripped text; that text is the result when it is longer than
    50 characters, and otherwise, or when no selector has such a match,
    the result is the not-found sentence.  No later selector is consulted
    after a short first match, and a text of 50 characters or fewer is
    never the result. *)
Theorem get_horoscope_first_nonempty_match
        (net : nat -> Fetched HoroscopeSoup) (soup : HoroscopeSoup)
        (sign sign_en sign_symbol : string) (attempt : nat) :
  Py.dict_get zodiac_signs (Py.lower sign) = Some (sign_en, sign_symbol) ->
  (attempt < 3)%nat ->
  (forall earlier, (earlier < attempt)%nat -> net earlier = RequestException) ->
  net attempt = Document soup ->
  fst (get_horoscope net sign) =
  match List.find (fun sel => stripped_nonempty (soup sel)) possible_selectors with
  | Some selector =>
      let text := Py.strip (default "" (soup selector)) in
      if 50 <? Py.len text then text else not_found_text
  | None => not_found_text
  end.
Proof.
  intros Hsign Hlt Hfail Hnet. unfold get_horoscope. rewrite Hsign.
  change (seq 0 3) with [0; 1; 2]%nat.
  destruct attempt as [|[|[|attempt]]]; [| | |lia].
  - rewrite (horoscope_document _ _ soup) by exact Hnet. reflexivity.
  - cbn [horoscope_attempts]. rewrite (Hfail 0%nat) by lia.
    fold (horoscope_attempts net (base_url sign_en) [1; 2]%nat).
    rewrite (horoscope_document _ _ soup) by exact Hnet. reflexivity.
  - cbn [horoscope_attempts]. rewrite (Hfail 0%nat), (Hfail 1%nat) by lia.
    fold (horoscope_attempts net (base_url sign_en) [2]%nat).
    rewrite (horoscope_document _ _ soup) by exact Hnet. reflexivity.
Qed.

(** C8. Three [RequestException]s in a row make [get_horoscope] return
    its connection-failure sentence and [get_tarot] its connection-failure
    triple, after three fetches separated by two sleeps of 5 seconds.  A
    page that was fetched is never fetched again, whatever the selectors
    find in it, and any other exception becomes the generic failure
    value: every outcome of a fetch is mapped to a returned value. *)
Theorem fetch_never_raises
        (horoscope_net : nat -> Fetched HoroscopeSoup)
        (tarot_net : nat -> Fetched TarotSoup)
        (exists_on_disk : string -> bool)
        (sign sign_en sign_symbol : string) :
  Py.dict_get zodiac_signs (Py.lower sign) = Some (sign_en, sign_symbol) ->
  let url := base_url sign_en in
  ((forall attempt, (attempt < 3)%nat -> horoscope_net attempt = RequestException) ->
   get_horoscope horoscope_net sign =
   (network_error_text, [Get url; Sleep 5; Get url; Sleep 5; Get url]))
  /\ ((forall attempt, (attempt < 3)%nat -> tarot_net attempt = RequestException) ->
      get_tarot exists_on_disk tarot_net =
      (network_error_tarot,
       [Get tarot_url; Sleep 5; Get tarot_url; Sleep 5; Get tarot_url]))
  /\ (forall soup, horoscope_net 0%nat = Document soup ->
                   snd (get_horoscope horoscope_net sign) = [Get url])
  /\ (forall soup, tarot_net 0%nat = Document soup ->
                   snd (get_tarot exists_on_disk tarot_net) = [Get tarot_url])
  /\ (horoscope_net 0%nat = OtherException ->
      get_horoscope horoscope_net sign = (unexpected_error_text, [Get url]))
  /\ (tarot_net 0%nat = OtherException ->
      get_tarot exists_on_disk tarot_net = (unexpected_error_tarot, [Get tarot_url])).
Proof.
  intros Hsign url. unfold get_horoscope, get_tarot. rewrite Hsign.
  change (seq 0 3) with [0; 1; 2]%nat. fold url.
  repeat split.
  - intros Hfail. cbn [horoscope_attempts].
    rewrite !Hfail by lia. reflexivity.
  - intros Hfail. cbn [tarot_attempts].
    rewrite !Hfail by lia. reflexivity.
  - intros soup Hnet. rewrite (horoscope_document _ _ soup) by exact Hnet. reflexivity.
  - intros soup Hnet. cbn [tarot_attempts]. rewrite Hnet. reflexivity.
  - intros Hnet. cbn [horoscope_attempts]. rewrite Hnet. reflexivity.
  - intros Hnet. cbn [tarot_attempts]. rewrite Hnet. reflexivity.
Qed.

(** Whatever the disk holds, a page that was fetched comes back with an
    image path. *)
Lemma get_tarot_path_regardless
      (exists_on_disk : string -> bool) (net : nat -> Fetched TarotSoup)
      (soup : TarotSoup) :
  net 0%nat = Document soup ->
  exists path, snd (fst (get_tarot exists_on_disk net)) = Some path.
Proof.
  intros Hnet. unfold get_tarot. change (seq 0 3) with [0; 1; 2]%nat.
  cbn [tarot_attempts]. rewrite Hnet. cbv zeta. eexists. reflexivity.
Qed.


Lemma replace_space_idempotent (s : string) :
  Py.replace (Py.replace s " " "_") " " "_" = Py.replace s " " "_".
Proof.
  assert (Hnil : forall r, String.prefix "" r = true) by (intros [|? ?]; reflexivity).
  unfold Py.replace. induction s as [|c r IH]; [reflexivity|].
  cbn [Py.replace_from String.prefix String.length Nat.sub].
  destruct (ascii_dec " " c) as [<-|Hne].
  - rewrite Hnil.
    change ("_" +:+ Py.replace_from " " "_" 0 r)
      with (String "_" (Py.replace_from " " "_" 0 r)).
    cbn. f_equal. exact IH.
  - cbn [Py.replace_from String.prefix].
    destruct (ascii_dec " " c) as [Heq|_]; [contradiction|]. f_equal. exact IH.
Qed.

Lemma dict_get_forallb {V} (P : string * V -> bool) (d : list (string * V))
      (key : string) (v : V) :
  forallb P d = true -> Py.dict_get d key = Some v -> P (key, v) = true.
Proof.
  induction d as [|[k x] rest IH]; intros Hall Hget; [discriminate Hget|].
  cbn in *. apply andb_true_iff in Hall as [Hhead Hrest].
  destruct (String.eqb k key) eqn:Hk.
  - apply String.eqb_eq in Hk. injection Hget as <-. subst k. exact Hhead.
  - apply IH; assumption.
Qed.

(** Every entry of the correction table is the slug of its own key. *)
Lemma corrections_are_slugs :
  forallb (fun entry => String.eqb (snd entry) (Py.replace (fst entry) " " "_" +:+ ".png"))
          file_name_corrections = true.
Proof. vm_compute. reflexivity. Qed.

(** The file name is the slug of the lower-cased card name, which is also
    what a lookup of the lower-cased name in the table gives when the name
    has an entry. *)
Lemma file_name_resolution (card_name : string) :
  let slug := Py.replace (Py.lower card_name) " " "_" +:+ ".png" in
  file_name_of card_name = slug
  /\ file_name_of card_name =
     match Py.dict_get file_name_corrections (Py.lower card_name) with
     | Some file_name => file_name
     | None => slug
     end.
Proof.
  cbv zeta.
  assert (Hslug : file_name_of card_name = Py.replace (Py.lower card_name) " " "_" +:+ ".png").
  { unfold file_name_of.
    destruct (Py.dict_get file_name_corrections _) as [file_name|] eqn:Hget; [|reflexivity].
    apply (dict_get_forallb _ _ _ _ corrections_are_slugs) in Hget.
    apply String.eqb_eq in Hget. cbn [fst snd] in Hget.
    rewrite Hget, replace_space_idempotent. reflexivity. }
  split; [exact Hslug|]. rewrite Hslug.
  destruct (Py.dict_get file_name_corrections (Py.lower card_name)) as [file_name|] eqn:Hget;
    [|reflexivity].
  apply (dict_get_forallb _ _ _ _ corrections_are_slugs) in Hget.
  apply String.eqb_eq in Hget. cbn [fst snd] in Hget. symmetry. exact Hget.
Qed.

End ParserFacts.

(** C7, as worded: on a page whose first selector matches a short banner and
    whose sixth matches the real text, the first match longer than 50
    characters is that text, and [get_horoscope] returns the not-found
    sentence instead. *)
Lemma get_horoscope_skips_later_long_match :
  @Examples.first_match_over_50 Py.reference Examples.banner_first_soup
  = Some Examples.long_text
  /\ fst (@HoroscopeParser.get_horoscope Py.reference
            (Examples.always (HoroscopeParser.Document Examples.banner_first_soup)) "Овен")
     = HoroscopeParser.not_found_text
  /\ HoroscopeParser.not_found_text <> Examples.long_text.
Proof.
  split; [vm_compute; reflexivity|]. split; [vm_compute; reflexivity|].
  vm_compute. discriminate.
Qed.

(** C6. With no image file on disk, [get_tarot] still returns the path it
    looked for instead of [None]. *)
Theorem get_tarot_returns_path_of_missing_file :
  @HoroscopeParser.get_tarot Py.reference Examples.nothing_on_disk
    (Examples.always (HoroscopeParser.Document Examples.fool_page))
  = (("Карта Таро сегодня: Шут",
      "✨ Шут✨" +:+ Py.nl +:+ Py.nl +:+ "📬 Начало пути." +:+ Py.nl +:+ Py.nl +:+
      "Доверьтесь случаю.",
      Some "/root/TAROBOT/tarot_images/шут.png"),
     [HoroscopeParser.Get HoroscopeParser.tarot_url]).
Proof. vm_compute. reflexivity. Qed.

(** * Properties of the bot *)

Section BotFacts.
Import UserDB Bot.
Context `{Py.Builtins}.

#[local] Ltac run :=
  unfold exec, eval, get_expiry, get_users, ret, mbind, mret, M_bind, M_ret; simpl.

Lemma get_expiry_pure (user_id : Z) (w : World) : snd (get_expiry user_id w) = w.
Proof.
  run. destruct (users w !! pretty user_id) as [u|]; [|reflexivity].
  destruct (active (subscription u)); reflexivity.
Qed.

Lemma format_remaining_time_users (e : option Z) (w : World) :
  users (snd (format_remaining_time e w)) = users w /\
  db_file (snd (format_remaining_time e w)) = db_file w.
Proof.
  unfold format_remaining_time, datetime_now, ret, mbind, mret, M_bind, M_ret.
  destruct e as [e|]; simpl; [|split; reflexivity].
  destruct (e <? _); [split; reflexivity|]. destruct (0 <? _); split; reflexivity.
Qed.

Lemma bind_run {A B} (m : M A) (k : A -> M B) (w : World) :
  (m ≫= k) w = k (fst (m w)) (snd (m w)).
Proof. unfold mbind, M_bind. destruct (m w). reflexivity. Qed.

(** The main menu reads the table through [has_active_subscription] and
    leaves it as that call left it. *)
Lemma get_main_menu_users (user_id : Z) (w : World) :
  let w' := exec (get_main_menu user_id) w in
  let w1 := exec (has_active_subscription user_id) w in
  users w' = users w1 /\ db_file w' = db_file w1.
Proof.
  cbv zeta. unfold exec, get_main_menu. rewrite bind_run.
  set (w1 := snd (has_active_subscription user_id w)).
  rewrite bind_run, get_expiry_pure, bind_run.
  destruct (fst (has_active_subscription user_id w)); simpl.
  - rewrite bind_run. simpl. apply format_remaining_time_users.
  - split; reflexivity.
Qed.

(** The notification of a paid plan leaves the table as one call of
    [has_active_subscription] leaves it. *)
Lemma notification_users (user_id : Z) (plan_id : string) (w : World) :
  is_Some (Py.dict_get SUBSCRIPTION_PLANS plan_id) ->
  let w' := exec (send_subscription_notification user_id plan_id false) w in
  let w1 := exec (has_active_subscription user_id) w in
  fst (send_subscription_notification user_id plan_id false w) = Some tt /\
  users w' = users w1 /\ db_file w' = db_file w1.
Proof.
  intros [plan Hplan]. cbv zeta. unfold exec, send_subscription_notification.
  rewrite Hplan, bind_run, get_expiry_pure, bind_run. simpl.
  split; [reflexivity|]. apply get_main_menu_users.
Qed.


(** No double matches both listed prices. *)
Lemma catalog_prices_apart (x : float) :
  (x =? 359)%float = true -> (x =? 159)%float = true -> False.
Proof.
  rewrite !FloatAxioms.eqb_spec.
  set (a := Prim2SF 359). vm_compute in a. subst a.
  set (b := Prim2SF 159). vm_compute in b. subst b.
  unfold SFeqb, SFcompare.
  destruct (Prim2SF x) as [s|s| |s m e];
    try (intros H1; discriminate H1); try (intros H1; destruct s; discriminate H1).
  destruct (Z.compare_spec e (-44)) as [He|He|He];
    destruct (Z.compare_spec e (-45)) as [He'|He'|He'];
    intros H1 H2; destruct s; try discriminate H1; try discriminate H2; lia.
Qed.

(** The handler up to the status test, for a body with its three fields. *)
Lemma handle_callback_validated (data : CallbackData) (user_id state amount : string) :
  cb_user_id data = Some user_id -> Py.truthy user_id = true ->
  cb_state data = Some state -> Py.truthy state = true ->
  cb_amount data = Some amount -> Py.truthy amount = true ->
  handle_callback (Json data) =
  if negb (String.eqb (Py.upper state) "PAYED") then
    ret (mkResponse "Payment not confirmed" 200)
  else
    match Py.float_of_str amount with
    | None => ret server_error
    | Some amount_f =>
        let amount_rub := (amount_f / 100)%float in
        match (if (amount_rub =? 359)%float then Some "month"
               else if (amount_rub =? 159)%float then Some "week"
               else None) with
        | None => ret (mkResponse "Unknown payment amount" 400)
        | Some plan_id =>
            match Py.dict_get SUBSCRIPTION_PLANS plan_id, Py.int_of_str user_id with
            | Some plan, Some uid =>
                set_subscription uid (days plan) "paid";;
                sent ← send_subscription_notification uid plan_id false;
                match sent with
                | Some _ => ret (mkResponse "OK" 200)
                | None => ret server_error
                end
            | _, _ => ret server_error
            end
        end
    end.
Proof.
  intros Hu Htu Hs Hts Ha Hta. unfold handle_callback.
  rewrite Hu, Hs, Ha. unfold Py.present. rewrite Htu, Hts, Hta. reflexivity.
Qed.

Lemma activation_then_notification (uid plan_days : Z) (plan_id : string) (w : World) :
  is_Some (Py.dict_get SUBSCRIPTION_PLANS plan_id) ->
  (set_subscription uid plan_days "paid";;
   sent ← send_subscription_notification uid plan_id false;
   match sent with
   | Some _ => ret (mkResponse "OK" 200)
   | None => ret server_error
   end) w
  = (mkResponse "OK" 200,
     exec (send_subscription_notification uid plan_id false)
          (exec (set_subscription uid plan_days "paid") w)).
Proof.
  intros Hplan. rewrite bind_run, bind_run. unfold exec.
  set (w1 := snd (set_subscription uid plan_days "paid" w)).
  destruct (notification_users uid plan_id w1 Hplan) as [-> _]. reflexivity.
Qed.

(** C3 (amended). A callback with the success status, case by case.
    Without a user id or without an amount the answer is a 400 and the
    world is untouched.  With both: an amount that is no number is answered
    500; an amount that is a number and, over 100, equals no price of the
    catalog is answered 400 [Unknown payment amount]; an amount that, over
    100, equals the price of a plan is answered 500 when the user id does
    not read as an integer; in these three cases the world is untouched.
    Otherwise the table goes through [set_subscription] for that user with
    that plan's days and type paid (then through the reads of the
    notification), the stored record is of type paid and expires that many
    days after the clock reading, and the answer is 200 OK. *)
Theorem handle_callback_exact_amount (data : CallbackData) (w : World) (state : string) :
  cb_state data = Some state -> Py.truthy state = true ->
  Py.upper state = "PAYED" ->
  (Py.present (cb_user_id data) = false \/ Py.present (cb_amount data) = false ->
   status (eval (handle_callback (Json data)) w) = 400 /\
   exec (handle_callback (Json data)) w = w)
  /\ (forall user_id amount,
         cb_user_id data = Some user_id -> Py.truthy user_id = true ->
         cb_amount data = Some amount -> Py.truthy amount = true ->
         match Py.float_of_str amount with
         | None => handle_callback (Json data) w = (server_error, w)
         | Some amount_f =>
             (forall plan_id plan,
                 In (plan_id, plan) SUBSCRIPTION_PLANS ->
                 (amount_f / 100 =? Py.float_of_int (price plan))%float = true ->
                 match Py.int_of_str user_id with
                 | None => handle_callback (Json data) w = (server_error, w)
                 | Some uid =>
                     let w1 := exec (set_subscription uid (days plan) "paid") w in
                     let w2 := exec (send_subscription_notification uid plan_id false) w1 in
                     let now := clock w (match users w !! pretty uid with
                                         | Some _ => ticks w | None => S (ticks w) end) in
                     handle_callback (Json data) w = (mkResponse "OK" 200, w2) /\
                     exists u, users w2 !! pretty uid = Some u /\
                               type (subscription u) = Some "paid" /\
                               expires (subscription u) = Some (now + timedelta (days plan))
                 end)
             /\ ((forall plan_id plan,
                     In (plan_id, plan) SUBSCRIPTION_PLANS ->
                     (amount_f / 100 =? Py.float_of_int (price plan))%float = false) ->
                 handle_callback (Json data) w
                 = (mkResponse "Unknown payment amount" 400, w))
         end).
Proof.
  intros Hs Hts Hpayed.
  assert (Hrecord : forall uid d plan_id,
    is_Some (Py.dict_get SUBSCRIPTION_PLANS plan_id) ->
    exists u,
      users (exec (send_subscription_notification uid plan_id false)
                  (exec (set_subscription uid d "paid") w)) !! pretty uid = Some u /\
      type (subscription u) = Some "paid" /\
      expires (subscription u) =
        Some (clock w (match users w !! pretty uid with
                       | Some _ => ticks w | None => S (ticks w) end) + timedelta d)).
  { intros uid d plan_id Hplan.
    destruct (notification_users uid plan_id (exec (set_subscription uid d "paid") w) Hplan)
      as (_ & -> & _).
    unfold exec. rewrite set_subscription_spec. cbv zeta.
    rewrite has_active_subscription_spec. cbn [snd users].
    rewrite lookup_insert_eq. cbn [subscription active expires].
    destruct (_ <? _); cbn [snd users]; rewrite ?lookup_insert_eq;
      eexists; (split; [reflexivity|]); split; reflexivity. }
  split.
  - intros Hmissing. unfold eval, exec, handle_callback. rewrite Hs.
    destruct (Py.present (cb_user_id data)); cbn [negb]; [|split; reflexivity].
    destruct Hmissing as [Hmissing|Hmissing]; [discriminate Hmissing|].
    rewrite Hmissing. cbn [negb Py.present]. rewrite Hts. cbn [negb]. split; reflexivity.
  - intros user_id amount Hu Htu Ha Hta.
    rewrite (handle_callback_validated data user_id state amount) by assumption.
    rewrite Hpayed, String.eqb_refl. cbn [negb].
    destruct (Py.float_of_str amount) as [amount_f|]; [|reflexivity]. cbv zeta.
    split.
    + intros plan_id plan Hin Hprice.
      assert (Hchosen :
        (if (amount_f / 100 =? 359)%float then Some "month"
         else if (amount_f / 100 =? 159)%float then Some "week" else None)
        = Some plan_id
        /\ Py.dict_get SUBSCRIPTION_PLANS plan_id = Some plan).
      { destruct Hin as [Heq|[Heq|[]]]; injection Heq as <- <-; cbn [price] in Hprice.
        - set (p := Py.float_of_int 159) in Hprice. vm_compute in p. subst p.
          destruct (amount_f / 100 =? 359)%float eqn:H359;
            [exfalso; exact (catalog_prices_apart _ H359 Hprice)|].
          rewrite Hprice. split; reflexivity.
        - set (p := Py.float_of_int 359) in Hprice. vm_compute in p. subst p.
          rewrite Hprice. split; reflexivity. }
      destruct Hchosen as [-> Hplan]. rewrite Hplan.
      destruct (Py.int_of_str user_id) as [uid|]; [|reflexivity].
      rewrite activation_then_notification by (eexists; exact Hplan).
      split; [reflexivity|]. apply Hrecord. eexists; exact Hplan.
    + intros Hnone.
      pose proof (Hnone "week" _ (or_introl eq_refl)) as H159.
      pose proof (Hnone "month" _ (or_intror (or_introl eq_refl))) as H359.
      cbn [price] in H159, H359.
      set (p := Py.float_of_int 159) in H159. vm_compute in p. subst p.
      set (p := Py.float_of_int 359) in H359. vm_compute in p. subst p.
      rewrite H159, H359. reflexivity.
Qed.

(** C4 (amended). A callback whose status is present and is not the
    success word changes nothing in the world; when its user id and its
    amount are present as well the answer is 200, and when one of them is
    missing the answer is 400. *)
Theorem handle_callback_unpaid_status (data : CallbackData) (w : World) (state : string) :
  cb_state data = Some state -> Py.truthy state = true ->
  Py.upper state <> "PAYED" ->
  exec (handle_callback (Json data)) w = w
  /\ (Py.present (cb_user_id data) = true -> Py.present (cb_amount data) = true ->
      eval (handle_callback (Json data)) w = mkResponse "Payment not confirmed" 200)
  /\ (Py.present (cb_user_id data) = false \/ Py.present (cb_amount data) = false ->
      status (eval (handle_callback (Json data)) w) = 400).
Proof.
  intros Hs Hts Hne. unfold exec, eval, handle_callback.
  rewrite Hs. apply String.eqb_neq in Hne.
  destruct (Py.present (cb_user_id data)); destruct (Py.present (cb_amount data));
    cbn [negb Py.present default from_option]; unfold id; rewrite ?Hts; cbn [negb];
    rewrite ?Hne; cbn [negb];
    (split; [reflexivity|]; split;
     [ intros Hp1 Hp2; first [reflexivity | discriminate Hp1 | discriminate Hp2]
     | intros [Hp|Hp]; first [reflexivity | discriminate Hp] ]).
Qed.









End BotFacts.

(** * The theorems at concrete inputs *)

Section Witnesses.
Import UserDB Bot HoroscopeParser Examples.

Lemma has_active_subscription_lazy_expiry_witness :
  eval (has_active_subscription 42) lapsed_world = false
  /\ (exists u', users (exec (has_active_subscription 42) lapsed_world) !! "42" = Some u'
                 /\ active (subscription u') = false)
  /\ db_file (exec (has_active_subscription 42) lapsed_world)
     = users (exec (has_active_subscription 42) lapsed_world).
Proof.
  destruct (has_active_subscription_lazy_expiry lapsed_world 42) as [Hexpired _].
  destruct (Hexpired lapsed_user 100) as [Hfalse Hflip];
    [vm_compute; reflexivity | reflexivity | vm_compute; reflexivity |].
  split; [exact Hfalse | apply Hflip; reflexivity].
Defined.

Lemma lazy_expiry_frame_witness :
  exists u', users (exec (has_active_subscription 42) lapsed_world) !! "42" = Some u'
             /\ active (subscription u') = false
             /\ expires (subscription u') = Some 100.
Proof.
  destruct (lazy_expiry_frame lapsed_world 42 lapsed_user 100) as [(u' & Hk & Ha & He & _) _];
    [vm_compute; reflexivity | reflexivity | reflexivity | vm_compute; reflexivity |].
  exists u'. split; [exact Hk|]. split; [exact Ha | exact He].
Defined.


Lemma get_horoscope_first_nonempty_match_witness :
  fst (@get_horoscope Py.reference (always (Document banner_first_soup)) "Овен")
  = not_found_text.
Proof.
  rewrite (@get_horoscope_first_nonempty_match Py.reference
             (always (Document banner_first_soup)) banner_first_soup "Овен" "aries" "♈️" 0);
    [vm_compute; reflexivity | vm_compute; reflexivity | lia | intros earlier Hlt; lia
     | reflexivity].
Defined.

Lemma fetch_never_raises_witness :
  @get_horoscope Py.reference (always RequestException) "Овен"
  = (network_error_text,
     [Get (base_url "aries"); Sleep 5; Get (base_url "aries"); Sleep 5;
      Get (base_url "aries")]).
Proof.
  destruct (@fetch_never_raises Py.reference (always RequestException)
              (always RequestException) nothing_on_disk "Овен" "aries" "♈️")
    as [Hthree _]; [vm_compute; reflexivity |].
  apply Hthree. intros attempt _. reflexivity.
Defined.

Lemma set_subscription_latest_wins_witness :
  exists u,
    users (exec (set_subscription_or_raise 42 30 "paid")
                (exec (set_subscription_or_raise 42 7 "trial") world_2025)) !! "42"
    = Some u
    /\ expires (subscription u) = Some (clock_2025 3 + timedelta 30).
Proof.
  destruct (set_subscription_latest_wins world_2025 42 7 30 "trial" "paid")
    as (_ & Hreturns & _).
  destruct Hreturns as [Hstored _]; [vm_compute; reflexivity|]. exact Hstored.
Defined.

Lemma handle_callback_exact_amount_witness :
  exists w2 u,
    @handle_callback Py.reference (Json paid_week) empty_world = (mkResponse "OK" 200, w2)
    /\ users w2 !! "42" = Some u
    /\ type (subscription u) = Some "paid"
    /\ expires (subscription u) = Some (1001 + timedelta 7).
Proof.
  destruct (@handle_callback_exact_amount Py.reference paid_week empty_world "PAYED")
    as [_ Hfields]; try reflexivity.
  pose proof (Hfields "42" "15900" eq_refl eq_refl eq_refl eq_refl) as Hamount.
  change (@Py.float_of_str Py.reference "15900") with (Some 15900%float) in Hamount.
  destruct Hamount as [Hmatch _].
  pose proof (Hmatch "week" (mkPlan "7 дней" 159 "7 дней" 7 "22р в день")) as Hweek.
  change (@Py.int_of_str Py.reference "42") with (Some 42) in Hweek.
  destruct Hweek as [Hrun (u & Hk & Hty & Hexp)];
    [left; reflexivity | vm_compute; reflexivity |].
  eexists. exists u. split; [exact Hrun|]. split; [exact Hk|]. split; [exact Hty|exact Hexp].
Defined.

Lemma handle_callback_unpaid_status_witness :
  exec (@handle_callback Py.reference (Json failed_with_amount)) lapsed_world = lapsed_world
  /\ eval (@handle_callback Py.reference (Json failed_with_amount)) lapsed_world
     = mkResponse "Payment not confirmed" 200.
Proof.
  destruct (@handle_callback_unpaid_status Py.reference failed_with_amount lapsed_world
              "FAILED") as (Hsame & Hack & _);
    [reflexivity | reflexivity | vm_compute; discriminate |].
  split; [exact Hsame | apply Hack; reflexivity].
Defined.


End Witnesses.

(** * The claims that fail as worded, at concrete inputs *)

Section Counterexamples.
Import UserDB Bot HoroscopeParser Examples.


(** The other direction: user 7254288870 is on no list, holds no
    subscription, and is let through to the sign menu. *)
Lemma hardcoded_user_is_served :
  is_admin ["1"] 7254288870 = false
  /\ eval (has_active_subscription 7254288870) empty_world = false
  /\ reply_text
       <$> eval (@handle_text_content Py.reference nothing_on_disk (always RequestException)
                   (always RequestException) horoscope_button 7254288870) empty_world
     = Some "Выбери знак зодиака:".
Proof. repeat split; vm_compute; reflexivity. Qed.

(** C3, as worded: the status is the success word and the amount matches
    no price of the catalog, being no number at all, yet the answer is 500
    and not 400; and an amount that is the weekly price activates nothing
    and is answered 500 when the user id does not read as an integer. *)
Lemma paid_callback_with_unreadable_field_is_500 :
  @Py.upper Py.reference "PAYED" = "PAYED"
  /\ @handle_callback Py.reference (Json paid_amount_abc) empty_world
     = (mkResponse "Server error" 500, empty_world)
  /\ @handle_callback Py.reference (Json paid_user_abc) empty_world
     = (mkResponse "Server error" 500, empty_world).
Proof. split; [reflexivity|]. split; vm_compute; reflexivity. Qed.

(** C4, as worded: the status is present and is not the success word, yet
    the answer is 400 because the amount is missing. *)
Lemma unpaid_status_without_amount_is_rejected :
  Py.present (cb_state failed_without_amount) = true
  /\ @Py.upper Py.reference "FAILED" <> "PAYED"
  /\ eval (@handle_callback Py.reference (Json failed_without_amount)) empty_world
     = mkResponse "amount is required" 400.
Proof. split; [reflexivity|]. split; [vm_compute; discriminate|]. reflexivity. Qed.

(** C9, as worded: on the first day of 2025 a second activation for
    3000000 days raises at line 85, and the stored expiry stays that of the
    first activation, seven days after its reading; it is not the reading
    of the second call plus the second call's days. *)
Lemma overflowing_day_count_is_not_stored :
  let w1 := exec (set_subscription_or_raise 42 7 "paid") world_2025 in
  let w2 := exec (set_subscription_or_raise 42 3000000 "paid") w1 in
  eval (set_subscription_or_raise 42 7 "paid") world_2025 = Some tt
  /\ eval (set_subscription_or_raise 42 3000000 "paid") w1 = None
  /\ expires <$> (subscription <$> users w2 !! "42")
     = Some (Some (clock_2025 1 + timedelta 7))
  /\ clock_2025 1 + timedelta 7 <> clock w1 (ticks w1) + timedelta 3000000.
Proof.
  cbv zeta. split; [|split; [|split]]; vm_compute; first [reflexivity | discriminate].
Qed.

(** C6, seen from the chat: the subscriber is told that the card could not
    be fetched, not shown the card's text without a picture. *)
Lemma tarot_request_fails_without_image :
  reply_text
    <$> eval (@handle_text_content Py.reference nothing_on_disk
                (always (Document fool_page)) (always RequestException)
                tarot_button 7254288870) empty_world
  = Some "❌ Не удалось получить карту Таро. Попробуйте позже.".
Proof. vm_compute. reflexivity. Qed.

End Counterexamples.

(** * Further properties of the user table *)

Section UserDBInvariants.
Import UserDB Controller.

(** Every call either leaves table and file as they were or ends with the
    file equal to the table. *)
Lemma run_op_effect (op : Op) (w : World) :
  (users (run_op op w) = users w /\ db_file (run_op op w) = db_file w)
  \/ db_file (run_op op w) = users (run_op op w).
Proof.
  destruct op as [uid un | uid d ty | uid | uid | uid | | e | uid]; simpl; unfold exec.
  - rewrite add_user_spec. destruct (users w !! pretty uid); [left; split|right]; reflexivity.
  - rewrite set_subscription_spec. right. reflexivity.
  - rewrite has_active_subscription_spec.
    destruct (users w !! pretty uid) as [u|]; [|left; split; reflexivity].
    destruct (active (subscription u)); [|left; split; reflexivity].
    destruct (expires (subscription u)) as [e|]; [|left; split; reflexivity].
    destruct (e <? _); [right|left; split]; reflexivity.
  - left. rewrite get_expiry_pure. split; reflexivity.
  - left. unfold get_subscription_start, get_users, ret, mbind, mret, M_bind, M_ret. simpl.
    destruct (users w !! pretty uid) as [u|]; [destruct (active (subscription u))|];
      split; reflexivity.
  - left. split; reflexivity.
  - left. apply format_remaining_time_users.
  - rewrite can_use_trial_spec.
    destruct (users w !! pretty uid); [left; split|right]; reflexivity.
Qed.

(** X1. The JSON file mirrors the table: [UserDB.__init__] leaves them
    equal, and from then on every sequence of calls ends with the file
    equal to the table. *)
Theorem table_file_in_sync :
  (forall file clock, db_file (load_users file clock) = users (load_users file clock))
  /\ (forall ops w, db_file w = users w -> db_file (run_ops ops w) = users (run_ops ops w)).
Proof.
  split.
  - intros [table|] clock; reflexivity.
  - intros ops. induction ops as [|op ops IH]; intros w Hw; [exact Hw|].
    simpl. apply IH.
    destruct (run_op_effect op w) as [[Hu Hf]|Hs]; [|exact Hs].
    rewrite Hu, Hf. exact Hw.
Qed.

(** One call keeps every record in the table, with its name and its
    [last_active]. *)
Lemma run_op_record (op : Op) (w : World) (k : string) (u : User) :
  users w !! k = Some u ->
  exists u', users (run_op op w) !! k = Some u'
             /\ username u' = username u /\ last_active u' = last_active u.
Proof.
  intros Hk.
  assert (Hsame : users (run_op op w) = users w ->
                  exists u', users (run_op op w) !! k = Some u'
                             /\ username u' = username u /\ last_active u' = last_active u).
  { intros ->. exists u. repeat split. exact Hk. }
  destruct op as [uid un | uid d ty | uid | uid | uid | | e | uid];
    try (apply Hsame, readers_keep_users; exact I); simpl; unfold exec.
  - rewrite add_user_spec.
    destruct (users w !! pretty uid) eqn:Hu; [exists u; repeat split; exact Hk|]. simpl.
    exists u. repeat split. rewrite lookup_insert_ne; [exact Hk|congruence].
  - rewrite set_subscription_spec. simpl.
    destruct (decide (pretty uid = k)) as [<-|Hne].
    + rewrite lookup_insert_eq, Hk. eexists. repeat split.
    + exists u. repeat split. rewrite lookup_insert_ne by exact Hne. exact Hk.
  - rewrite has_active_subscription_spec.
    destruct (users w !! pretty uid) as [v|] eqn:Hu; [|exists u; repeat split; exact Hk].
    destruct (active (subscription v)); [|exists u; repeat split; exact Hk].
    destruct (expires (subscription v)) as [e|]; [|exists u; repeat split; exact Hk].
    destruct (e <? _); [|exists u; repeat split; exact Hk]. simpl.
    destruct (decide (pretty uid = k)) as [<-|Hne].
    + rewrite lookup_insert_eq. rewrite Hk in Hu. injection Hu as <-.
      eexists. repeat split.
    + exists u. repeat split. rewrite lookup_insert_ne by exact Hne. exact Hk.
  - rewrite can_use_trial_spec.
    destruct (users w !! pretty uid) eqn:Hu; [exists u; repeat split; exact Hk|]. simpl.
    exists u. repeat split. rewrite lookup_insert_ne; [exact Hk|congruence].
Qed.

Lemma registered_stays (ops : list Op) (w : World) (k : string) :
  is_Some (users w !! k) -> is_Some (users (run_ops ops w) !! k).
Proof.
  revert w. induction ops as [|op ops IH]; intros w [u Hk]; [eexists; exact Hk|].
  simpl. apply IH. destruct (run_op_record op w k u Hk) as (u1 & Hk1 & _).
  eexists; exact Hk1.
Qed.

(** X2. A registered user is never removed from the table, and the
    [username] and [last_active] written at registration are never
    rewritten, whatever calls follow. *)
Theorem registration_is_permanent (ops : list Op) (w : World) (k : string) (u : User) :
  users w !! k = Some u ->
  exists u', users (run_ops ops w) !! k = Some u'
             /\ username u' = username u /\ last_active u' = last_active u.
Proof.
  revert w u. induction ops as [|op ops IH]; intros w u Hk.
  - exists u. repeat split. exact Hk.
  - simpl. destruct (run_op_record op w k u Hk) as (u1 & Hk1 & Hn1 & Hl1).
    destruct (IH _ _ Hk1) as (u' & Hk' & Hn' & Hl').
    exists u'. split; [exact Hk'|]. split; congruence.
Qed.

(** X3. Once a user is registered, every later [add_user] for that user is
    a no-op, even with another username and after any other calls. *)
Theorem add_user_never_overwrites
        (w : World) (user_id : Z) (first second : option string) (ops : list Op) :
  let w1 := run_ops ops (exec (add_user user_id first) w) in
  add_user user_id second w1 = (tt, w1).
Proof.
  cbv zeta.
  assert (Hreg : is_Some (users (exec (add_user user_id first) w) !! pretty user_id)).
  { unfold exec. rewrite add_user_spec.
    destruct (users w !! pretty user_id) eqn:Hk; simpl.
    - rewrite Hk. eexists; reflexivity.
    - rewrite lookup_insert_eq. eexists; reflexivity. }
  destruct (registered_stays ops _ _ Hreg) as [u' Hk'].
  rewrite add_user_spec, Hk'. reflexivity.
Qed.


(** The check rewrites nothing but [active] in any record. *)
Lemma check_keeps_terms (user_id : Z) (w : World) (k : string) (u : User) :
  users w !! k = Some u ->
  exists u', users (run_op (HasActiveSubscription user_id) w) !! k = Some u'
             /\ expires (subscription u') = expires (subscription u)
             /\ type (subscription u') = type (subscription u)
             /\ start_date (subscription u') = start_date (subscription u)
             /\ trial_used (subscription u') = trial_used (subscription u).
Proof.
  intros Hk. simpl. unfold exec. rewrite has_active_subscription_spec.
  destruct (users w !! pretty user_id) as [v|] eqn:Hu; [|exists u; repeat split; exact Hk].
  destruct (active (subscription v)); [|exists u; repeat split; exact Hk].
  destruct (expires (subscription v)) as [e|]; [|exists u; repeat split; exact Hk].
  destruct (e <? _); [|exists u; repeat split; exact Hk]. simpl.
  destruct (decide (pretty user_id = k)) as [<-|Hne].
  - rewrite lookup_insert_eq. rewrite Hk in Hu. injection Hu as <-.
    eexists. repeat split.
  - exists u. repeat split. rewrite lookup_insert_ne by exact Hne. exact Hk.
Qed.

(** X4. The stored [active] flag of a user changes in two ways only: it
    becomes true through [set_subscription] for that user, and it becomes
    false through the lazy-expiry check of [has_active_subscription] for
    that user. *)
Theorem active_flag_changes (op : Op) (w : World) (user_id : Z) :
  (active_of w user_id = false -> active_of (run_op op w) user_id = true ->
   exists days sub_type, op = SetSubscription user_id days sub_type)
  /\ (active_of w user_id = true -> active_of (run_op op w) user_id = false ->
      op = HasActiveSubscription user_id).
Proof.
  unfold active_of.
  assert (Hne : forall uid' : Z, uid' <> user_id -> pretty uid' <> pretty user_id).
  { intros uid' Hd Heq. apply Hd, (inj pretty), Heq. }
  destruct op as [uid un | uid d ty | uid | uid | uid | | e | uid];
    try (rewrite readers_keep_users by exact I; split; congruence); simpl; unfold exec.
  - rewrite add_user_spec.
    destruct (users w !! pretty uid) eqn:Hu; [simpl; split; congruence|]. simpl.
    destruct (decide (uid = user_id)) as [->|Hd].
    + rewrite lookup_insert_eq, Hu. split; discriminate.
    + rewrite lookup_insert_ne by auto. split; congruence.
  - rewrite set_subscription_spec. simpl.
    destruct (decide (uid = user_id)) as [->|Hd].
    + rewrite lookup_insert_eq. split; [eauto|discriminate].
    + rewrite lookup_insert_ne by auto. split; congruence.
  - rewrite has_active_subscription_spec.
    destruct (users w !! pretty uid) as [v|] eqn:Hu; [|simpl; split; congruence].
    destruct (active (subscription v)); [|simpl; split; congruence].
    destruct (expires (subscription v)) as [e|]; [|simpl; split; congruence].
    destruct (e <? _); [|simpl; split; congruence]. simpl.
    destruct (decide (uid = user_id)) as [->|Hd].
    + rewrite lookup_insert_eq. split; [discriminate|reflexivity].
    + rewrite lookup_insert_ne by auto. split; congruence.
  - rewrite can_use_trial_spec.
    destruct (users w !! pretty uid) eqn:Hu; [simpl; split; congruence|]. simpl.
    destruct (decide (uid = user_id)) as [->|Hd].
    + rewrite lookup_insert_eq, Hu. split; discriminate.
    + rewrite lookup_insert_ne by auto. split; congruence.
Qed.

(** [add_days] answers only with a datetime. *)
Lemma add_days_in_range (now days e : Z) :
  add_days now days = Some e ->
  Z.abs days <= timedelta_max_days /\ 0 <= e <= datetime_max.
Proof.
  unfold add_days. destruct (_ && _) eqn:Hrange; [|discriminate].
  intros [= <-]. apply andb_prop in Hrange as [Hrange Hmax].
  apply andb_prop in Hrange as [Hdays Hmin]. lia.
Qed.

(** X5. [set_subscription] and what the readers show next.  When the call
    returns, [get_expiry] gives the clock reading of the call plus the
    days, which is a datetime, and [get_subscription_start] the next
    reading; [has_active_subscription] then answers true, changing nothing
    but the clock, as long as the time of the check is not past that
    expiry, and false once it is.  When the call raises the
    [OverflowError] of line 85, the two readers show what they showed
    before the call. *)
Theorem activation_is_visible (w : World) (user_id days : Z) (sub_type : string) :
  let call := set_subscription_or_raise user_id days sub_type in
  let w1 := exec call w in
  let t := match users w !! pretty user_id with
           | Some _ => ticks w | None => S (ticks w) end in
  let granted := clock w t + timedelta days in
  (eval call w = Some tt ->
   0 <= granted <= datetime_max
   /\ eval (get_expiry user_id) w1 = Some granted
   /\ eval (get_subscription_start user_id) w1 = Some (clock w (S t))
   /\ (clock w1 (ticks w1) <= granted ->
       eval (has_active_subscription user_id) w1 = true
       /\ users (exec (has_active_subscription user_id) w1) = users w1)
   /\ (granted < clock w1 (ticks w1) ->
       eval (has_active_subscription user_id) w1 = false))
  /\ (eval call w = None ->
      eval (get_expiry user_id) w1 = eval (get_expiry user_id) w
      /\ eval (get_subscription_start user_id) w1 = eval (get_subscription_start user_id) w).
Proof.
  cbv zeta. unfold eval, exec.
  rewrite set_subscription_or_raise_spec. cbv zeta.
  destruct (add_days _ days) as [e|] eqn:He; cbn [fst snd].
  - split; [intros _|discriminate].
    pose proof (add_days_sum _ _ _ He) as ->.
    split; [apply (add_days_in_range _ _ _ He)|].
    unfold exec, eval. rewrite set_subscription_spec. cbv zeta. cbn [snd].
    unfold get_expiry, get_subscription_start, get_users, ret, mbind, mret, M_bind, M_ret.
    rewrite has_active_subscription_spec. cbn [fst snd users clock ticks].
    rewrite lookup_insert_eq. cbn [subscription active expires start_date].
    split; [reflexivity|]. split; [reflexivity|]. split.
    + intros Hle. apply Z.ltb_ge in Hle. rewrite Hle. split; reflexivity.
    + intros Hlt. apply Z.ltb_lt in Hlt. rewrite Hlt. reflexivity.
  - split; [discriminate|intros _].
    unfold exec, eval, datetime_now. rewrite bind_run, add_user_spec.
    unfold get_expiry, get_subscription_start, get_users, ret, mbind, mret, M_bind, M_ret.
    destruct (users w !! pretty user_id) as [u|] eqn:Hk;
      cbn [fst snd users]; rewrite ?lookup_insert_eq, ?Hk;
      [destruct (active (subscription u))|]; split; reflexivity.
Qed.

(** X6. A lapsed record that has not been checked yet still shows its old
    expiry through [get_expiry]; after one [has_active_subscription] both
    [get_expiry] and [get_subscription_start] give [None], and a further
    check answers false without touching the world. *)
Theorem lapsed_record_views (w : World) (user_id : Z) (u : User) (e : Z) :
  users w !! pretty user_id = Some u ->
  active (subscription u) = true ->
  expires (subscription u) = Some e ->
  e < clock w (ticks w) ->
  let w' := exec (has_active_subscription user_id) w in
  eval (get_expiry user_id) w = Some e
  /\ eval (get_expiry user_id) w' = None
  /\ eval (get_subscription_start user_id) w' = None
  /\ has_active_subscription user_id w' = (false, w').
Proof.
  intros Hk Ha He Hlt. cbv zeta. apply Z.ltb_lt in Hlt.
  unfold exec, eval. rewrite !has_active_subscription_spec, Hk, Ha, He, Hlt.
  cbn [snd users]. rewrite lookup_insert_eq. cbn [on_subscription subscription set_inactive active].
  unfold get_expiry, get_subscription_start, get_users, ret, mbind, mret, M_bind, M_ret.
  cbn [fst snd users]. rewrite Hk, Ha, lookup_insert_eq.
  cbn [on_subscription subscription set_inactive active]. rewrite He.
  repeat split.
Qed.

(** X7. [format_remaining_time]: nothing for no expiry, the word for
    expired when the expiry is past, and otherwise whole days and hours
    below 24 when at least a day is left, else hours and minutes below 60;
    the figures shown are the time left rounded down. *)
Theorem format_remaining_time_parts (w : World) (e : Z) :
  let now := clock w (ticks w) in
  let left := e - now in
  eval (format_remaining_time None) w = ""
  /\ (e < now -> eval (format_remaining_time (Some e)) w = "истекла")
  /\ (now <= e ->
      exists d h m,
        0 <= d /\ 0 <= h < 24 /\ 0 <= m < 60
        /\ (d * 86400 + h * 3600 + m * 60) * 1000000 <= left
           < (d * 86400 + h * 3600 + m * 60 + 60) * 1000000
        /\ eval (format_remaining_time (Some e)) w =
           if 0 <? d then pretty d +:+ "д " +:+ pretty h +:+ "ч"
           else pretty h +:+ "ч " +:+ pretty m +:+ "м").
Proof.
  cbv zeta. unfold eval, format_remaining_time, datetime_now, ret, mbind, mret, M_bind, M_ret.
  cbn [fst]. split; [reflexivity|]. split.
  - intros Hlt. apply Z.ltb_lt in Hlt. rewrite Hlt. reflexivity.
  - intros Hle. apply Z.ltb_ge in Hle. rewrite Hle.
    set (left := e - clock w (ticks w)).
    assert (Hleft : 0 <= left) by (apply Z.ltb_ge in Hle; unfold left; lia).
    exists (left / 86400000000), ((left mod 86400000000) / 1000000 / 3600),
           (((left mod 86400000000) / 1000000) mod 3600 / 60).
    clear Hle.
    split; [Z.div_mod_to_equations; lia|].
    split; [Z.div_mod_to_equations; lia|].
    split; [Z.div_mod_to_equations; lia|].
    split; [Z.div_mod_to_equations; lia|].
    destruct (0 <? left / 86400000000); reflexivity.
Qed.

End UserDBInvariants.

(** * Further properties of the payment callback *)

Section CallbackFacts.
Import UserDB Bot Controller.
Context `{Py.Builtins}.

(** The handler either answers something other than OK and leaves the
    world alone, or answers OK after one paid activation of a plan of the
    catalog; which of the two, and for whom, is decided by the body alone. *)
Lemma handle_callback_cases (request : Request) :
  (exists r, text r <> "OK" /\ forall w, handle_callback request w = (r, w))
  \/ (exists uid plan_id plan,
         In (plan_id, plan) SUBSCRIPTION_PLANS /\
         forall w,
           handle_callback request w =
           (mkResponse "OK" 200,
            exec (send_subscription_notification uid plan_id false)
                 (exec (set_subscription uid (days plan) "paid") w))).
Proof.
  assert (Hstay : forall (r : Response) (m : M Response),
             text r <> "OK" -> m = ret r ->
             (exists r, text r <> "OK" /\ forall w, m w = (r, w)) \/
             (exists uid plan_id plan,
                 In (plan_id, plan) SUBSCRIPTION_PLANS /\
                 forall w, m w =
                   (mkResponse "OK" 200,
                    exec (send_subscription_notification uid plan_id false)
                         (exec (set_subscription uid (days plan) "paid") w)))).
  { intros r m Hr ->. left. exists r. split; [exact Hr|]. intros w. reflexivity. }
  destruct request as [|data]; [eapply Hstay; [|reflexivity]; discriminate|].
  unfold handle_callback.
  destruct (Py.present (cb_user_id data)); cbn [negb];
    [|eapply Hstay; [|reflexivity]; discriminate].
  destruct (Py.present (cb_state data)); cbn [negb];
    [|eapply Hstay; [|reflexivity]; discriminate].
  destruct (Py.present (cb_amount data)); cbn [negb];
    [|eapply Hstay; [|reflexivity]; discriminate].
  destruct (String.eqb _ "PAYED"); cbn [negb];
    [|eapply Hstay; [|reflexivity]; discriminate].
  destruct (Py.float_of_str _) as [amount_f|];
    [|eapply Hstay; [|reflexivity]; discriminate].
  cbv zeta.
  destruct (amount_f / 100 =? 359)%float.
  - cbn [Py.dict_get SUBSCRIPTION_PLANS String.eqb Ascii.eqb Bool.eqb].
    destruct (Py.int_of_str _) as [uid|];
      [|eapply Hstay; [|reflexivity]; discriminate].
    right. eexists uid, "month", _. split; [right; left; reflexivity|].
    intros w. cbn [days]. apply activation_then_notification. eexists; reflexivity.
  - destruct (amount_f / 100 =? 159)%float;
      [|eapply Hstay; [|reflexivity]; discriminate].
    cbn [Py.dict_get SUBSCRIPTION_PLANS String.eqb Ascii.eqb Bool.eqb].
    destruct (Py.int_of_str _) as [uid|];
      [|eapply Hstay; [|reflexivity]; discriminate].
    right. eexists uid, "week", _. split; [left; reflexivity|].
    intros w. cbn [days]. apply activation_then_notification. eexists; reflexivity.
Qed.

Lemma catalog_plan_found (plan_id : string) (plan : Plan) :
  In (plan_id, plan) SUBSCRIPTION_PLANS -> is_Some (Py.dict_get SUBSCRIPTION_PLANS plan_id).
Proof. intros [Heq|[Heq|[]]]; injection Heq as <- <-; eexists; reflexivity. Qed.

(** The record a paid activation followed by its notification leaves. *)
Lemma paid_activation_record (w : World) (uid d : Z) (plan_id : string) :
  is_Some (Py.dict_get SUBSCRIPTION_PLANS plan_id) ->
  let t := match users w !! pretty uid with Some _ => ticks w | None => S (ticks w) end in
  exists u,
    users (exec (send_subscription_notification uid plan_id false)
                (exec (set_subscription uid d "paid") w)) !! pretty uid = Some u /\
    type (subscription u) = Some "paid" /\
    expires (subscription u) = Some (clock w t + timedelta d) /\
    trial_used (subscription u) = trial_used_of w uid.
Proof.
  intros Hplan. cbv zeta.
  destruct (notification_users uid plan_id (exec (set_subscription uid d "paid") w) Hplan)
    as (_ & -> & _).
  unfold exec, trial_used_of. rewrite set_subscription_spec. cbv zeta.
  rewrite has_active_subscription_spec. cbn [snd users].
  rewrite lookup_insert_eq. cbn [subscription active expires].
  destruct (_ <? _); cbn [snd users]; rewrite ?lookup_insert_eq;
    eexists; (split; [reflexivity|]); cbn; repeat split;
    destruct (users w !! pretty uid); reflexivity.
Qed.

(** X8. Whatever the body, a callback that is not answered OK leaves the
    whole world as it was: invalid JSON, a missing field, an unpaid status,
    an unknown amount and an amount or user id that cannot be read all
    change nothing. *)
Theorem handle_callback_mutates_only_on_ok (request : Request) (w : World) :
  text (eval (handle_callback request) w) <> "OK" ->
  exec (handle_callback request) w = w.
Proof.
  unfold eval, exec.
  destruct (handle_callback_cases request) as [(r & _ & Hrun)|(uid & pid & plan & _ & Hrun)];
    rewrite Hrun; cbn [fst snd text].
  - reflexivity.
  - intros Hne. exfalso. apply Hne. reflexivity.
Qed.

(** X9. The payment number plays no part, and nothing is remembered of
    a callback: the same body delivered again is answered OK again and
    opens a fresh window, the stored expiry being the clock reading of the
    second delivery plus the plan's days. *)
Theorem handle_callback_replay (data : CallbackData) (w : World) :
  (forall number,
      handle_callback
        (Json (mkCallbackData (cb_user_id data) (cb_state data) (cb_amount data) number)) w
      = handle_callback (Json data) w)
  /\ (text (eval (handle_callback (Json data)) w) = "OK" ->
      let w1 := exec (handle_callback (Json data)) w in
      let w2 := exec (handle_callback (Json data)) w1 in
      eval (handle_callback (Json data)) w1 = mkResponse "OK" 200
      /\ exists (uid : Z) plan_id plan u,
           In (plan_id, plan) SUBSCRIPTION_PLANS
           /\ users w2 !! pretty uid = Some u
           /\ expires (subscription u) = Some (clock w1 (ticks w1) + timedelta (days plan))).
Proof.
  split; [intros number; reflexivity|].
  cbv zeta. unfold eval, exec.
  destruct (handle_callback_cases (Json data))
    as [(r & Hr & Hrun)|(uid & pid & plan & Hin & Hrun)]; rewrite !Hrun; cbn [fst snd].
  - intros Hok. contradiction.
  - intros _. split; [reflexivity|].
    exists uid, pid, plan.
    pose proof (catalog_plan_found _ _ Hin) as Hplan.
    destruct (paid_activation_record w uid (days plan) pid Hplan) as (u1 & Hk1 & _).
    set (w1 := exec (send_subscription_notification uid pid false)
                    (exec (set_subscription uid (days plan) "paid") w)) in *.
    destruct (paid_activation_record w1 uid (days plan) pid Hplan) as (u2 & Hk2 & _ & He2 & _).
    rewrite Hk1 in He2. exists u2. split; [exact Hin|]. split; [exact Hk2|exact He2].
Qed.

(** X10. A payment callback never touches anybody's [trial_used]: a user
    who pays keeps the free trial for later if it was not used. *)
Theorem handle_callback_keeps_trial (request : Request) (w : World) (user_id : Z) :
  trial_used_of (exec (handle_callback request) w) user_id = trial_used_of w user_id.
Proof.
  unfold exec.
  destruct (handle_callback_cases request) as [(r & _ & Hrun)|(uid & pid & plan & Hin & Hrun)];
    rewrite Hrun; cbn [snd]; [reflexivity|].
  pose proof (catalog_plan_found _ _ Hin) as Hplan.
  destruct (notification_users uid pid (exec (set_subscription uid (days plan) "paid") w) Hplan)
    as (_ & Husers & _).
  unfold trial_used_of at 1. rewrite Husers.
  change (trial_used_of
            (run_op (HasActiveSubscription uid)
                    (run_op (SetSubscription uid (days plan) "paid") w)) user_id
          = trial_used_of w user_id).
  rewrite !trial_used_step. cbn. rewrite andb_false_r. reflexivity.
Qed.

End CallbackFacts.

(** * Properties of the handlers *)

Section ControllerFacts.
Import UserDB Bot Controller.

Lemma channels_loop_true (get_member : string -> Z -> option string) (user_id : Z)
      (channels : list Channel) :
  fst (channels_loop get_member user_id channels) = true <->
  Forall (fun ch => exists status,
              get_member (chat_id_of ch) user_id = Some status /\ In status member_statuses)
         channels.
Proof.
  induction channels as [|ch rest IH]; [split; [constructor|reflexivity]|].
  cbn [channels_loop].
  destruct (get_member (chat_id_of ch) user_id) as [status|] eqn:Hm.
  - destruct (existsb (String.eqb status) member_statuses) eqn:Hs.
    + destruct (channels_loop get_member user_id rest) as [r asked]. cbn [fst] in *.
      rewrite IH. split.
      * intros Hrest. constructor; [|exact Hrest]. exists status. split; [exact Hm|].
        apply existsb_exists in Hs as (x & Hin & Heq). apply String.eqb_eq in Heq.
        subst x. exact Hin.
      * intros Hall. inversion Hall. assumption.
    + split; [discriminate|]. intros Hall. inversion Hall as [|? ? (st & Hst & Hin) _]. subst.
      rewrite Hm in Hst. injection Hst as <-.
      assert (existsb (String.eqb status) member_statuses = true) as Habs.
      { apply existsb_exists. exists status. split; [exact Hin|apply String.eqb_refl]. }
      congruence.
  - split; [discriminate|]. intros Hall. inversion Hall as [|? ? (st & Hst & _) _]. congruence.
Qed.

Lemma channels_loop_asked (get_member : string -> Z -> option string) (user_id : Z)
      (channels : list Channel) :
  exists n, snd (channels_loop get_member user_id channels)
            = List.map chat_id_of (take n channels).
Proof.
  induction channels as [|ch rest [n IH]]; [exists 0%nat; reflexivity|].
  cbn [channels_loop].
  destruct (get_member (chat_id_of ch) user_id) as [status|];
    [destruct (existsb _ _)|]; try (exists 1%nat; reflexivity).
  destruct (channels_loop get_member user_id rest) as [r asked]. cbn [snd] in *.
  exists (S n). cbn. rewrite IH. reflexivity.
Qed.

(** X11. The channel check fails closed: it passes exactly for an admin,
    who is not looked up at all, or for a user whom every configured
    channel reports as member, administrator or creator; any other status
    and any failed lookup refuse, and the channels are asked in order up to
    the first refusal. *)
Theorem check_channel_subscription_fail_closed (env : Env) (user_id : Z) :
  (fst (check_channel_subscription env user_id) = true <->
   is_admin (ADMIN_IDS env) user_id = true \/
   Forall (fun ch => exists status,
               get_chat_member env (chat_id_of ch) user_id = Some status
               /\ In status member_statuses)
          (CHANNELS env))
  /\ (is_admin (ADMIN_IDS env) user_id = true ->
      snd (check_channel_subscription env user_id) = [])
  /\ (exists n, snd (check_channel_subscription env user_id)
                = List.map chat_id_of (take n (CHANNELS env))).
Proof.
  unfold check_channel_subscription.
  destruct (is_admin (ADMIN_IDS env) user_id).
  - split; [split; [left|]; reflexivity|]. split; [reflexivity|]. exists 0%nat. reflexivity.
  - rewrite channels_loop_true.
    split; [split; [right; assumption|intros [Habs|Hall]; [discriminate Habs|exact Hall]]|].
    split; [discriminate|]. apply channels_loop_asked.
Qed.

Lemma registered_after_menu (user_id : Z) (w : World) (k : string) :
  is_Some (users w !! k) -> is_Some (users (exec (get_main_menu user_id) w) !! k).
Proof.
  intros [u Hk].
  replace (users (exec (get_main_menu user_id) w))
    with (users (run_op (HasActiveSubscription user_id) w))
    by (symmetry; apply (get_main_menu_users user_id w)).
  destruct (run_op_record (HasActiveSubscription user_id) w k u Hk) as (u' & Hk' & _).
  eexists; exact Hk'.
Qed.

Lemma registered_after_add_user (user_id : Z) (uname : option string) (w : World) :
  is_Some (users (exec (add_user user_id uname) w) !! pretty user_id).
Proof.
  unfold exec. rewrite add_user_spec.
  destruct (users w !! pretty user_id) eqn:Hk; simpl.
  - rewrite Hk. eexists; reflexivity.
  - rewrite lookup_insert_eq. eexists; reflexivity.
Qed.

(** X12. [/start] and the re-check button register a user only after the
    channel check has passed: a refused user gets the prompt (or, from the
    button, nothing) and the world is untouched; a user who passes has a
    record afterwards. *)
Theorem start_registers_after_check
        (env : Env) (msgs : MessageManager.Store) (user_id : Z) (uname : option string)
        (w : World) :
  (fst (check_channel_subscription env user_id) = false ->
   start env msgs user_id uname w = ([ReplyText (subscribe_prompt env)], w)
   /\ button_callback env msgs "check_sub" user_id uname w = ([AnswerQuery], w))
  /\ (fst (check_channel_subscription env user_id) = true ->
      is_Some (users (exec (start env msgs user_id uname) w) !! pretty user_id)
      /\ is_Some (users (exec (button_callback env msgs "check_sub" user_id uname) w)
                  !! pretty user_id)).
Proof.
  unfold start, button_callback. cbn [String.eqb Ascii.eqb Bool.eqb].
  split; intros ->; cbn [negb].
  - split; reflexivity.
  - unfold exec. rewrite !bind_run. cbn [snd ret mret M_ret].
    split; apply registered_after_menu, registered_after_add_user.
Qed.

End ControllerFacts.

(** * The free trial *)

Section TrialFacts.
Import UserDB Bot Controller.
Context `{Py.Builtins}.

Lemma trial_used_of_users (w w' : World) (user_id : Z) :
  users w = users w' -> trial_used_of w user_id = trial_used_of w' user_id.
Proof. unfold trial_used_of. intros ->. reflexivity. Qed.

Lemma users_after_menu (user_id : Z) (w : World) :
  users (exec (get_main_menu user_id) w) = users (run_op (HasActiveSubscription user_id) w).
Proof. apply (get_main_menu_users user_id w). Qed.

Lemma trial_used_after_menu (user_id other : Z) (w : World) :
  trial_used_of (exec (get_main_menu user_id) w) other = trial_used_of w other.
Proof.
  rewrite (trial_used_of_users _ _ _ (users_after_menu user_id w)).
  apply trial_used_step.
Qed.

Lemma trial_notification_world (user_id : Z) (plan_id : string) (w : World) :
  exec (send_subscription_notification user_id plan_id true) w
  = exec (get_main_menu user_id) (exec datetime_now w).
Proof. unfold exec, send_subscription_notification. rewrite !bind_run. reflexivity. Qed.

(** An eligible press: registration if needed, activation, notification,
    menu. *)
Lemma activate_trial_world (user_id : Z) (w : World) :
  eval (can_use_trial user_id) w = true ->
  exec (activate_trial user_id) w
  = exec (get_main_menu user_id)
      (exec (send_subscription_notification user_id "" true)
         (exec (set_subscription user_id 3 "trial") (exec (can_use_trial user_id) w))).
Proof.
  intros Hel. unfold eval in Hel. unfold exec, activate_trial.
  rewrite bind_run, Hel, !bind_run. reflexivity.
Qed.

Lemma activate_trial_refused (user_id : Z) (w : World) :
  trial_used_of w user_id = true ->
  activate_trial user_id w =
  ([ReplyText (mkMessage
                 "❌ Вы уже использовали пробный период. Оформите подписку для продолжения:"
                 trial_used_keyboard None)], w).
Proof.
  unfold trial_used_of. intros Hused. unfold activate_trial.
  rewrite bind_run, can_use_trial_spec.
  destruct (users w !! pretty user_id) as [u|]; [|discriminate Hused].
  cbn [fst snd]. rewrite Hused. reflexivity.
Qed.

Lemma trial_used_after_press (user_id : Z) (w : World) :
  trial_used_of (exec (activate_trial user_id) w) user_id = true.
Proof.
  destruct (eval (can_use_trial user_id) w) eqn:Hel.
  - rewrite (activate_trial_world _ _ Hel), trial_used_after_menu,
      trial_notification_world, trial_used_after_menu.
    change (trial_used_of
              (run_op (SetSubscription user_id 3 "trial") (exec (can_use_trial user_id) w))
              user_id = true).
    rewrite trial_used_step, bool_decide_eq_true_2 by reflexivity. reflexivity.
  - unfold eval in Hel. rewrite can_use_trial_spec in Hel.
    assert (Hused : trial_used_of w user_id = true).
    { unfold trial_used_of. destruct (users w !! pretty user_id) as [u|]; [|discriminate Hel].
      cbn in Hel. destruct (trial_used (subscription u)); [reflexivity|discriminate Hel]. }
    unfold exec. rewrite (activate_trial_refused _ _ Hused). exact Hused.
Qed.

(** X13. The trial button works once: after one press, whatever calls
    follow, a further press answers that the trial was already used and
    changes nothing at all. *)
Theorem trial_only_once (user_id : Z) (w : World) (ops : list Op) :
  let w1 := run_ops ops (exec (activate_trial user_id) w) in
  activate_trial user_id w1 =
  ([ReplyText (mkMessage
                 "❌ Вы уже использовали пробный период. Оформите подписку для продолжения:"
                 trial_used_keyboard None)], w1).
Proof.
  cbv zeta. apply activate_trial_refused, trial_used_kept, trial_used_after_press.
Qed.

(** X14. A press of the trial button by an eligible user (registered or
    not) stores a subscription of type trial that expires three days after
    the clock reading of the activation, with [trial_used] set; the
    notification and the menus that follow do not alter these. *)
Theorem trial_grants_three_days (user_id : Z) (w : World) :
  eval (can_use_trial user_id) w = true ->
  let t := match users w !! pretty user_id with
           | Some _ => ticks w | None => S (ticks w) end in
  exists u,
    users (exec (activate_trial user_id) w) !! pretty user_id = Some u
    /\ type (subscription u) = Some "trial"
    /\ expires (subscription u) = Some (clock w t + timedelta 3)
    /\ start_date (subscription u) = Some (clock w (S t))
    /\ trial_used (subscription u) = true.
Proof.
  intros Hel. cbv zeta. rewrite (activate_trial_world _ _ Hel).
  set (wa := exec (can_use_trial user_id) w).
  assert (Hwa : is_Some (users wa !! pretty user_id)
                /\ clock wa = clock w
                /\ ticks wa = match users w !! pretty user_id with
                              | Some _ => ticks w | None => S (ticks w) end).
  { unfold wa, exec. rewrite can_use_trial_spec.
    destruct (users w !! pretty user_id) eqn:Hk; cbn.
    - rewrite Hk. repeat split. eexists; reflexivity.
    - rewrite lookup_insert_eq. repeat split. eexists; reflexivity. }
  destruct Hwa as ([ua Hua] & Hclock & Hticks).
  set (wb := exec (set_subscription user_id 3 "trial") wa).
  assert (Hwb : exists ub, users wb !! pretty user_id = Some ub
                           /\ type (subscription ub) = Some "trial"
                           /\ expires (subscription ub)
                              = Some (clock wa (ticks wa) + timedelta 3)
                           /\ start_date (subscription ub) = Some (clock wa (S (ticks wa)))
                           /\ trial_used (subscription ub) = true).
  { unfold wb, exec. rewrite set_subscription_spec. cbv zeta. cbn [snd users].
    rewrite lookup_insert_eq, Hua. eexists. repeat split. }
  destruct Hwb as (ub & Hub & Hty & Hexp & Hst & Htu).
  rewrite trial_notification_world.
  assert (Hwc : users (exec datetime_now wb) !! pretty user_id = Some ub) by exact Hub.
  destruct (check_keeps_terms user_id _ _ _ Hwc) as (uc & Huc & He1 & Ht1 & Hs1 & Hu1).
  rewrite <- users_after_menu in Huc.
  destruct (check_keeps_terms user_id _ _ _ Huc) as (ud & Hud & He2 & Ht2 & Hs2 & Hu2).
  rewrite <- users_after_menu in Hud.
  exists ud. split; [exact Hud|]. rewrite <- Hclock, <- Hticks.
  repeat split; congruence.
Qed.

End TrialFacts.

(** * Broadcast, templates, start-up *)

Section AdminFacts.
Import UserDB Bot Controller.

Lemma broadcast_loop_counts (send_ok : string -> bool) (edit_ok : Z -> bool)
      (broadcast_text : string) (recipients : list (string * User)) (s0 f0 : Z) :
  let delivered := List.filter (fun r => send_ok (fst r)) recipients in
  let failed := List.filter (fun r => negb (send_ok (fst r))) recipients in
  let '(s, f, acts) := broadcast_loop send_ok edit_ok broadcast_text recipients s0 f0 in
  sent_to acts = List.map fst recipients
  /\ s = s0 + Z.of_nat (length delivered)
  /\ f0 + Z.of_nat (length failed) <= f
  /\ ((forall n, edit_ok n = true) -> f = f0 + Z.of_nat (length failed)).
Proof.
  cbv zeta. revert s0 f0.
  induction recipients as [|[chat u] rest IH]; intros s0 f0.
  - cbn. repeat split; lia.
  - cbn [broadcast_loop List.filter fst List.map].
    destruct (send_ok chat); cbn [negb].
    + destruct ((s0 + 1) mod 10 =? 0).
      * destruct (edit_ok (s0 + 1)) eqn:He.
        -- specialize (IH (s0 + 1) f0).
           destruct (broadcast_loop _ _ _ rest (s0 + 1) f0) as [[s f] acts].
           destruct IH as (Ha & Hs & Hf & Hall). cbn [length].
           repeat split; [cbn; f_equal; exact Ha | lia | lia | intros Hok; apply Hall, Hok].
        -- specialize (IH (s0 + 1) (f0 + 1)).
           destruct (broadcast_loop _ _ _ rest (s0 + 1) (f0 + 1)) as [[s f] acts].
           destruct IH as (Ha & Hs & Hf & Hall). cbn [length].
           repeat split; [cbn; f_equal; exact Ha | lia | lia |].
           intros Hok. rewrite Hok in He. discriminate He.
      * specialize (IH (s0 + 1) f0).
        destruct (broadcast_loop _ _ _ rest (s0 + 1) f0) as [[s f] acts].
        destruct IH as (Ha & Hs & Hf & Hall). cbn [length].
        repeat split; [cbn; f_equal; exact Ha | lia | lia | intros Hok; apply Hall, Hok].
    + specialize (IH s0 (f0 + 1)).
      destruct (broadcast_loop _ _ _ rest s0 (f0 + 1)) as [[s f] acts].
      destruct IH as (Ha & Hs & Hf & Hall). cbn [length].
      repeat split; [cbn; f_equal; exact Ha | lia | lia |].
      intros Hok. specialize (Hall Hok). lia.
Qed.

(** X15. A broadcast writes to every registered user exactly once, failed
    deliveries included: no failure stops the batch.  The flag of the
    pending broadcast is cleared, and the closing message reports as
    successes the deliveries that went through and as errors at least the
    ones that did not (exactly those when every progress edit succeeds). *)
Theorem broadcast_reaches_everyone
        (send_ok : string -> bool) (edit_ok : Z -> bool) (text : string)
        (user_id : Z) (ud : UserData) (w : World) :
  awaiting_broadcast ud = true ->
  text <> "❌ Отменить" ->
  let recipients := map_to_list (users w) in
  let delivered := List.filter (fun r => send_ok (fst r)) recipients in
  let failed := List.filter (fun r => negb (send_ok (fst r))) recipients in
  exists acts fail_count,
    handle_broadcast_message send_ok edit_ok text user_id ud w
    = (ReplyText (mkMessage "📢 Начинаю рассылку..." NoMarkup None)
         :: acts
         ++ [EditText (mkMessage (finished_text (Z.of_nat (length delivered)) fail_count)
                                 back_keyboard None)],
       with_awaiting false ud, w)
    /\ sent_to acts = List.map fst recipients
    /\ (forall k, k ∈ sent_to acts <-> is_Some (users w !! k))
    /\ NoDup (sent_to acts)
    /\ Z.of_nat (length failed) <= fail_count
    /\ ((forall n, edit_ok n = true) -> fail_count = Z.of_nat (length failed)).
Proof.
  intros Hflag Htext. cbv zeta. unfold handle_broadcast_message.
  rewrite Hflag. cbn [negb]. apply String.eqb_neq in Htext. rewrite Htext.
  unfold get_all_users, get_users. rewrite !bind_run. cbn [fst snd ret mret M_ret].
  pose proof (broadcast_loop_counts send_ok edit_ok text (map_to_list (users w)) 0 0) as Hloop.
  cbv zeta in Hloop.
  destruct (broadcast_loop send_ok edit_ok text (map_to_list (users w)) 0 0) as [[s f] acts].
  destruct Hloop as (Ha & Hs & Hf & Hall).
  exists acts, f. rewrite Hs, Z.add_0_l. split; [reflexivity|].
  split; [exact Ha|]. rewrite Ha. split; [|split; [|split]].
  - intros k. rewrite list_elem_of_fmap. split.
    + intros ([k' u] & -> & Hin). apply elem_of_map_to_list in Hin. eexists; exact Hin.
    + intros [u Hk]. exists (k, u). split; [reflexivity|]. apply elem_of_map_to_list, Hk.
  - apply NoDup_fst_map_to_list.
  - lia.
  - intros Hok. rewrite (Hall Hok). lia.
Qed.

Lemma dict_get_value {V} (d : list (string * V)) (key : string) (v : V) :
  Py.dict_get d key = Some v -> In v (List.map snd d).
Proof.
  induction d as [|[k x] rest IH]; intros Hget; [discriminate Hget|].
  cbn [Py.dict_get] in Hget. destruct (String.eqb k key).
  - injection Hget as <-. left. reflexivity.
  - right. apply IH, Hget.
Qed.

(** X16. The templates change in one way only: an admin with a pending
    edit sends a text that is not one of the three template buttons, and
    that text is then stored under the pending key (the back button's text
    included, since the edit is tested before it).  In every other case
    the store is left as it was. *)
Theorem templates_change_only_by_admin_edit
        (env : Env) (write_ok : bool) (text : string) (user_id : Z)
        (msgs : MessageManager.Store) (ud : UserData) :
  let '(acts, msgs', ud') := handle_edit_message env write_ok text user_id msgs ud in
  (is_admin (ADMIN_IDS env) user_id = true
   /\ Py.dict_get message_map text = None
   /\ exists key, editing_message ud = Some key /\ Py.truthy key = true
                  /\ MessageManager.messages msgs'
                     = <[key := text]> (MessageManager.messages msgs)
                  /\ editing_message ud' = None)
  \/ msgs' = msgs.
Proof.
  unfold handle_edit_message.
  destruct (is_admin (ADMIN_IDS env) user_id); cbn [negb]; [|right; reflexivity].
  destruct (Py.dict_get message_map text); [right; reflexivity|].
  destruct (editing_message ud) as [key|] eqn:Hed; cbn [Py.present]; [|right; reflexivity].
  destruct (Py.truthy key) eqn:Hkey; [|right; reflexivity].
  left. split; [reflexivity|]. split; [reflexivity|].
  exists key. split; [reflexivity|]. split; [exact Hkey|].
  split; [|reflexivity]. unfold MessageManager.set, MessageManager._save.
  destruct write_ok; reflexivity.
Qed.

(** X17. Editing a template end to end: an admin presses one of the three
    template buttons and then sends a text; that text is what [get] gives
    for the button's key from then on, other keys are untouched, and it is
    what the matching information button shows to a user.  This holds
    whether or not the write to disk succeeded. *)
Theorem template_edit_round_trip
        (env : Env) (write_ok : bool) (label key new_text : string) (user_id : Z)
        (msgs : MessageManager.Store) (ud : UserData) :
  is_admin (ADMIN_IDS env) user_id = true ->
  Py.dict_get message_map label = Some key ->
  Py.dict_get message_map new_text = None ->
  let '(_, msgs1, ud1) := handle_edit_message env write_ok label user_id msgs ud in
  let '(_, msgs2, ud2) := handle_edit_message env write_ok new_text user_id msgs1 ud1 in
  (forall d, MessageManager.get msgs2 key d = new_text)
  /\ (forall other d, other <> key ->
                      MessageManager.get msgs2 other d = MessageManager.get msgs other d)
  /\ editing_message ud2 = None
  /\ (key = "select_spread" ->
      handle_text_info msgs2 "✨ Выбрать расклад/узнать прайс"
      = Some [ReplyText (mkMessage new_text
                                   (ReplyKeyboard [["ЗАПИСАТЬСЯ"; "СПРОСИТЬ"]; [back_button]])
                                   None)])
  /\ (key = "how_spread_works" ->
      handle_text_info msgs2 "Психология: как проходит/прайс💜"
      = Some [ReplyText (mkMessage new_text
                                   (ReplyKeyboard [["ЗАПИСАТЬСЯ"; "СПРОСИТЬ"]; [back_button]])
                                   None)]).
Proof.
  intros Hadmin Hlabel Hnew. unfold handle_edit_message.
  rewrite Hadmin, Hlabel, Hnew. cbn [negb editing_message with_editing Py.present].
  assert (Hkey : Py.truthy key = true).
  { apply dict_get_value in Hlabel.
    destruct Hlabel as [<-|[<-|[<-|[]]]]; reflexivity. }
  rewrite Hkey. cbn [default from_option]. unfold id.
  assert (Hget : forall k d,
    MessageManager.get (MessageManager.set write_ok key new_text msgs) k d
    = if decide (key = k) then new_text else MessageManager.get msgs k d).
  { intros k d. unfold MessageManager.get, MessageManager.set, MessageManager._save.
    destruct write_ok; cbn [MessageManager.messages]; rewrite lookup_insert;
      destruct (decide (key = k)); reflexivity. }
  split; [intros d; rewrite Hget, decide_True by reflexivity; reflexivity|].
  split; [intros other d Hne; rewrite Hget, decide_False by congruence; reflexivity|].
  split; [reflexivity|].
  split; intros ->; unfold handle_text_info;
    cbn [String.eqb Ascii.eqb Bool.eqb orb];
    rewrite Hget, decide_True by reflexivity; reflexivity.
Qed.

(** X18. Modal input comes first in [handle_text]: while a broadcast is
    pending every text goes to the broadcast handler, and otherwise, while
    an admin's edit is pending, every text that is not a template button is
    stored as the template without reaching any later branch; this
    includes the back button, the only key of the edit prompt's own
    keyboard.  With neither pending and a text that is no template button
    the handler goes on to its later branches. *)
Theorem modal_input_comes_first
        (env : Env) (send_ok : string -> bool) (edit_ok : Z -> bool) (write_ok : bool)
        (text : string) (user_id : Z) (msgs : MessageManager.Store) (ud : UserData)
        (w : World) :
  (awaiting_broadcast ud = true ->
   handle_text_modal env send_ok edit_ok write_ok text user_id msgs ud w
   = (let r := handle_broadcast_message send_ok edit_ok text user_id ud w in
      (Some (fst (fst r), msgs, snd (fst r)), snd r)))
  /\ (awaiting_broadcast ud = false ->
      is_admin (ADMIN_IDS env) user_id = true ->
      Py.dict_get message_map text = None ->
      forall key,
        editing_message ud = Some key -> Py.truthy key = true ->
        exists acts msgs',
          handle_text_modal env send_ok edit_ok write_ok text user_id msgs ud w
          = (Some (acts, msgs', with_editing None ud), w)
          /\ forall d, MessageManager.get msgs' key d = text)
  /\ (awaiting_broadcast ud = false ->
      Py.present (editing_message ud) = false ->
      Py.dict_get message_map text = None ->
      handle_text_modal env send_ok edit_ok write_ok text user_id msgs ud w = (None, w)).
Proof.
  assert (Hlabels : forall (d : list (string * string)),
             Py.dict_get d text = None -> existsb (String.eqb text) (List.map fst d) = false).
  { induction d as [|[k v] rest IH]; [reflexivity|]. cbn [Py.dict_get List.map existsb fst].
    rewrite (String.eqb_sym k text).
    destruct (String.eqb text k); [intros Hd; discriminate Hd|exact IH]. }
  unfold handle_text_modal. split; [|split].
  - intros ->. rewrite bind_run. reflexivity.
  - intros -> Hadmin Htext key Hed Hkey. unfold Py.present. rewrite Hed, Hkey. cbn [orb].
    unfold handle_edit_message. rewrite Hadmin, Htext, Hed. cbn [negb Py.present].
    rewrite Hkey. eexists _, _. split; [reflexivity|].
    intros d. cbn [default from_option]. unfold id.
    unfold MessageManager.get, MessageManager.set, MessageManager._save.
    destruct write_ok; cbn [MessageManager.messages]; rewrite lookup_insert_eq; reflexivity.
  - intros -> -> Htext. rewrite (Hlabels _ Htext). reflexivity.
Qed.

(** X19. Start-up: without a bot token [main] exits with code 1 before
    any call to Telegram; with one it polls at most three times, returns
    as soon as a poll returns, exits with code 1 exactly when all three
    polls fail, and waits 1, 2 and 4 seconds after the first, second and
    third conflict. *)
Theorem main_polling_budget (token : option string) (webhook : option string)
        (poll : nat -> PollOutcome) :
  let r := main token webhook poll in
  (Py.present token = false -> r = (Exit 1, []))
  /\ (Py.present token = true ->
      (length (List.filter (fun e => match e with RunPolling => true | _ => false end)
                           (snd r)) <= 3)%nat
      /\ (fst r = Returned <-> exists attempt, (attempt < 3)%nat /\ poll attempt = Polled)
      /\ (fst r = Exit 1 <-> forall attempt, (attempt < 3)%nat -> poll attempt <> Polled)
      /\ (poll 0%nat = Conflict -> poll 1%nat = Conflict -> poll 2%nat = Conflict ->
          List.filter (fun e => match e with SleepSeconds _ => true | _ => false end) (snd r)
          = [SleepSeconds 1; SleepSeconds 2; SleepSeconds 4])).
Proof.
  cbv zeta. unfold main. split; intros ->; cbn [negb]; [reflexivity|].
  change (seq 0 3) with [0; 1; 2]%nat.
  assert (Hthree : forall attempt, (attempt < 3)%nat ->
                                   attempt = 0%nat \/ attempt = 1%nat \/ attempt = 2%nat)
    by (intros; lia).
  set (before := match webhook with
                 | Some url => if Py.truthy url then [GetWebhookInfo; DeleteWebhook]
                               else [GetWebhookInfo]
                 | None => [GetWebhookInfo] end).
  assert (Hbefore : forall P, (forall e, In e before -> P e = false) ->
                              forall tr, List.filter P (before ++ tr) = List.filter P tr).
  { intros P HP tr. rewrite List.filter_app.
    replace (List.filter P before) with (@nil MainEvent); [reflexivity|].
    symmetry. induction before as [|e b IHb]; [reflexivity|].
    cbn. rewrite (HP e (or_introl eq_refl)). apply IHb. intros e' He'. apply HP. right. exact He'. }
  assert (Hin : forall e, In e before -> e = GetWebhookInfo \/ e = DeleteWebhook).
  { unfold before. intros e. destruct webhook as [url|]; [destruct (Py.truthy url)|];
      cbn; intuition. }
  cbn [polling_loop].
  destruct (poll 0%nat) eqn:H0; destruct (poll 1%nat) eqn:H1; destruct (poll 2%nat) eqn:H2;
    cbn [fst snd Nat.ltb Nat.leb];
    (split; [rewrite Hbefore by (intros e He; destruct (Hin e He) as [->| ->]; reflexivity);
             cbn; lia|]);
    (split; [split;
             [first [discriminate
                    | intros _; first [exists 0%nat; split; [lia|assumption]
                                      | exists 1%nat; split; [lia|assumption]
                                      | exists 2%nat; split; [lia|assumption]]]
             | first [reflexivity
                     | intros (a & Ha & Hp);
                       destruct (Hthree a Ha) as [->|[->| ->]]; congruence]]|]);
    (split; [split;
             [first [discriminate
                    | intros _ a Ha; destruct (Hthree a Ha) as [->|[->| ->]]; congruence]
             | first [reflexivity
                     | intros Hall; exfalso;
                       first [apply (Hall 0%nat); [lia|assumption]
                             | apply (Hall 1%nat); [lia|assumption]
                             | apply (Hall 2%nat); [lia|assumption]]]]|]);
    try discriminate.
  intros _ _ _.
  rewrite Hbefore by (intros e He; destruct (Hin e He) as [->| ->]; reflexivity).
  reflexivity.
Qed.

End AdminFacts.

(** * Further properties of the scraper and of the last branches *)

Section FetchFacts.
Import UserDB Bot HoroscopeParser Controller.
Context `{Py.Builtins}.

Lemma horoscope_attempts_rounds (net : nat -> Fetched HoroscopeSoup) (url : string) :
  exists n, (n <= 2)%nat /\ snd (horoscope_attempts net url [0; 1; 2]%nat) = rounds url n.
Proof.
  cbn [horoscope_attempts].
  destruct (net 0%nat); try (exists 0%nat; split; [lia|]; first [reflexivity | destruct (accepted _); reflexivity]).
  destruct (net 1%nat); try (exists 1%nat; split; [lia|]; first [reflexivity | destruct (accepted _); reflexivity]).
  destruct (net 2%nat); exists 2%nat; (split; [lia|]);
    first [reflexivity | destruct (accepted _); reflexivity].
Qed.

(** X20. Whatever the network does, one call of [get_horoscope] or
    [get_tarot] makes at most three requests, sleeps 5 seconds between two
    of them and at no other time, and asks for nothing at all when the sign
    is not in the table. *)
Theorem fetch_budget
        (horoscope_net : nat -> Fetched HoroscopeSoup) (tarot_net : nat -> Fetched TarotSoup)
        (exists_on_disk : string -> bool) (sign : string) :
  (match Py.dict_get zodiac_signs (Py.lower sign) with
   | None => get_horoscope horoscope_net sign = (invalid_sign_text, [])
   | Some (sign_en, _) =>
       exists n, (n <= 2)%nat
                 /\ snd (get_horoscope horoscope_net sign) = rounds (base_url sign_en) n
   end)
  /\ exists n, (n <= 2)%nat
               /\ snd (get_tarot exists_on_disk tarot_net) = rounds tarot_url n.
Proof.
  split.
  - unfold get_horoscope. destruct (Py.dict_get zodiac_signs (Py.lower sign)) as [[en sym]|];
      [|reflexivity].
    apply horoscope_attempts_rounds.
  - unfold get_tarot. change (seq 0 3) with [0; 1; 2]%nat. cbn [tarot_attempts].
    destruct (tarot_net 0%nat); try (exists 0%nat; split; [lia|reflexivity]).
    destruct (tarot_net 1%nat); try (exists 1%nat; split; [lia|reflexivity]).
    destruct (tarot_net 2%nat); exists 2%nat; (split; [lia|reflexivity]).
Qed.

Lemma select_loop_origin (soup : HoroscopeSoup) (selectors : list string)
      (cur : option string) :
  select_loop soup selectors cur = cur
  \/ exists selector, In selector selectors /\ select_loop soup selectors cur = soup selector.
Proof.
  revert cur. induction selectors as [|sel rest IH]; intros cur; [left; reflexivity|].
  cbn [select_loop]. destruct (stripped_nonempty (soup sel)).
  - right. exists sel. split; [left|]; reflexivity.
  - destruct (IH (soup sel)) as [->|(s & Hin & ->)].
    + right. exists sel. split; [left|]; reflexivity.
    + right. exists s. split; [right; exact Hin|reflexivity].
Qed.

Lemma accepted_some (p : option string) (t : string) :
  accepted p = Some t ->
  exists raw, p = Some raw /\ t = Py.strip raw /\ 50 < Py.len t.
Proof.
  destruct p as [raw|]; [|discriminate]. cbn [accepted].
  destruct (Py.truthy _); cbn [andb]; [|discriminate].
  destruct (50 <? _) eqn:Hlen; [|discriminate]. intros Heq. injection Heq as <-.
  exists raw. repeat split. apply Z.ltb_lt, Hlen.
Qed.

(** X21. [get_horoscope] returns one of its four fixed sentences or a
    text of more than 50 characters, and such a text is always the
    stripped text of the match of one of the listed selectors in a page
    that was actually fetched. *)
Theorem get_horoscope_results (net : nat -> Fetched HoroscopeSoup) (sign : string) :
  let r := fst (get_horoscope net sign) in
  In r [invalid_sign_text; network_error_text; not_found_text; unexpected_error_text]
  \/ (50 < Py.len r
      /\ exists attempt soup selector raw,
           (attempt < 3)%nat /\ net attempt = Document soup
           /\ In selector possible_selectors
           /\ soup selector = Some raw /\ r = Py.strip raw).
Proof.
  cbv zeta. unfold get_horoscope.
  destruct (Py.dict_get zodiac_signs (Py.lower sign)) as [[en sym]|];
    [|left; left; reflexivity].
  change (seq 0 3) with [0; 1; 2]%nat. cbn [horoscope_attempts].
  assert (Hdoc : forall attempt soup,
    (attempt < 3)%nat -> net attempt = Document soup ->
    let r := match accepted (select_loop soup possible_selectors None) with
             | Some t => t | None => not_found_text end in
    In r [invalid_sign_text; network_error_text; not_found_text; unexpected_error_text]
    \/ (50 < Py.len r
        /\ exists attempt soup selector raw,
             (attempt < 3)%nat /\ net attempt = Document soup
             /\ In selector possible_selectors
             /\ soup selector = Some raw /\ r = Py.strip raw)).
  { intros attempt soup Hlt Hnet. cbv zeta.
    destruct (accepted _) as [t|] eqn:Hacc; [|left; right; right; left; reflexivity].
    right. apply accepted_some in Hacc as (raw & Hraw & Ht & Hlen).
    split; [exact Hlen|].
    destruct (select_loop_origin soup possible_selectors None) as [Hnone|(sel & Hin & Hsel)].
    - rewrite Hnone in Hraw. discriminate Hraw.
    - exists attempt, soup, sel, raw. rewrite Hsel in Hraw. repeat split; assumption. }
  destruct (net 0%nat) as [| |soup0] eqn:H0.
  - destruct (net 1%nat) as [| |soup1] eqn:H1.
    + destruct (net 2%nat) as [| |soup2] eqn:H2.
      * left. right. left. reflexivity.
      * left. right. right. right. left. reflexivity.
      * pose proof (Hdoc 2%nat soup2 ltac:(lia) H2) as Hr. cbv zeta in Hr.
        destruct (accepted _); exact Hr.
    + left. right. right. right. left. reflexivity.
    + pose proof (Hdoc 1%nat soup1 ltac:(lia) H1) as Hr. cbv zeta in Hr.
      destruct (accepted _); exact Hr.
  - left. right. right. right. left. reflexivity.
  - pose proof (Hdoc 0%nat soup0 ltac:(lia) H0) as Hr. cbv zeta in Hr.
    destruct (accepted _); exact Hr.
Qed.

Lemma test_loop_partition (net : string -> nat -> Fetched HoroscopeSoup) (signs : list string) :
  let (success, failed) := test_loop net signs in
  Permutation (success ++ failed) signs
  /\ Forall (fun sign =>
               let text := fst (get_horoscope (net sign) sign) in
               100 < Py.len text /\ Py.contains "Извините" text = false) success.
Proof.
  induction signs as [|sign rest IH]; [split; constructor|].
  cbn [test_loop]. destruct (test_loop net rest) as [success failed].
  destruct IH as [Hperm Hall].
  destruct (negb _ && _) eqn:Hok.
  - split; [cbn; constructor; exact Hperm|]. constructor; [|exact Hall].
    apply andb_true_iff in Hok as [Hc Hl]. apply negb_true_iff in Hc.
    apply Z.ltb_lt in Hl. split; assumption.
  - split; [|exact Hall]. symmetry. apply Permutation_cons_app. symmetry. exact Hperm.
Qed.

(** X22. The start-up self-test puts each of the twelve signs in exactly
    one of its two lists, and a sign counts as a success only when its text
    is longer than 100 characters and does not contain the apology word. *)
Theorem test_horoscopes_partition (net : string -> nat -> Fetched HoroscopeSoup) :
  let (success, failed) := test_horoscopes net in
  Permutation (success ++ failed) (List.map fst zodiac_signs)
  /\ NoDup (success ++ failed)
  /\ (length success + length failed = 12)%nat
  /\ Forall (fun sign =>
               let text := fst (get_horoscope (net sign) sign) in
               100 < Py.len text /\ Py.contains "Извините" text = false) success.
Proof.
  unfold test_horoscopes.
  pose proof (test_loop_partition net (List.map fst zodiac_signs)) as Hpart.
  destruct (test_loop net (List.map fst zodiac_signs)) as [success failed].
  destruct Hpart as [Hperm Hall].
  split; [exact Hperm|]. split; [|split; [|exact Hall]].
  - rewrite Hperm. apply (bool_decide_unpack _). vm_compute. reflexivity.
  - rewrite <- length_app, Hperm. reflexivity.
Qed.

(** X23. In the last branches of [handle_text] only the trial button can
    grant or alter a subscription: for any other text every record in the
    table stays exactly as it was (opening the subscription menu may add
    the default record of an unseen user), and [user_data] changes only
    when the gateway returned a payment link. *)
Theorem only_trial_button_alters_subscriptions
        (create_payment : Z -> Z -> string -> Payment)
        (text : string) (user_id : Z) (ud : UserData) (w : World) :
  text <> trial_button ->
  let r := handle_text_tail create_payment text user_id ud w in
  (forall k u, users w !! k = Some u -> users (snd r) !! k = Some u)
  /\ (forall other, active_of (snd r) other = active_of w other
                    /\ trial_used_of (snd r) other = trial_used_of w other)
  /\ (snd (fst r) <> ud ->
      exists plan_id plan url,
        In (plan_id, plan) SUBSCRIPTION_PLANS
        /\ create_payment (price plan) user_id plan_id = PaymentLink url
        /\ pending_plan (snd (fst r)) = Some plan_id
        /\ payment_url (snd (fst r)) = Some url).
Proof.
  intros Htext. cbv zeta. apply String.eqb_neq in Htext. unfold handle_text_tail.
  assert (Hsame : forall acts, let r : list Action * UserData * World := (acts, ud, w) in
    (forall k u, users w !! k = Some u -> users (snd r) !! k = Some u)
    /\ (forall other, active_of (snd r) other = active_of w other
                      /\ trial_used_of (snd r) other = trial_used_of w other)
    /\ (snd (fst r) <> ud ->
        exists plan_id plan url,
          In (plan_id, plan) SUBSCRIPTION_PLANS
          /\ create_payment (price plan) user_id plan_id = PaymentLink url
          /\ pending_plan (snd (fst r)) = Some plan_id
          /\ payment_url (snd (fst r)) = Some url)).
  { intros acts. cbn. repeat split; auto. intros Hne. contradiction. }
  destruct (_ || _); [apply Hsame|]. rewrite Htext.
  destruct (_ || _).
  - unfold choose_plan, ret, mret, M_ret.
    destruct (Py.contains "7 дней" text).
    + cbn [Py.dict_get SUBSCRIPTION_PLANS String.eqb Ascii.eqb Bool.eqb price].
      destruct (create_payment 159 user_id "week") as [err|url|] eqn:Hpay; try apply Hsame.
      cbn [fst snd]. repeat split; auto.
      intros _. eexists "week", _, url. split; [left; reflexivity|]. cbn [price].
      repeat split. exact Hpay.
    + cbn [Py.dict_get SUBSCRIPTION_PLANS String.eqb Ascii.eqb Bool.eqb price].
      destruct (create_payment 359 user_id "month") as [err|url|] eqn:Hpay; try apply Hsame.
      cbn [fst snd]. repeat split; auto.
      intros _. eexists "month", _, url. split; [right; left; reflexivity|]. cbn [price].
      repeat split. exact Hpay.
  - destruct (_ || _); [|apply Hsame].
    unfold subscription_menu. rewrite !bind_run. cbn [fst snd ret mret M_ret].
    rewrite can_use_trial_spec. unfold active_of, trial_used_of.
    destruct (users w !! pretty user_id) as [u0|] eqn:Hk; cbn [fst snd users].
    + repeat split; auto. intros Hne. contradiction.
    + split; [|split].
      * intros k u Hku. rewrite lookup_insert_ne; [exact Hku|congruence].
      * intros other. destruct (decide (pretty user_id = pretty other)) as [Heq|Hne].
        -- rewrite <- Heq, lookup_insert_eq, Hk. split; reflexivity.
        -- rewrite lookup_insert_ne by exact Hne. split; reflexivity.
      * intros Hne. contradiction.
Qed.

End FetchFacts.

(** * The further properties at concrete inputs *)

Section MoreWitnesses.
Import UserDB Bot HoroscopeParser Controller Examples Scenarios.

Lemma table_file_in_sync_witness :
  let w := run_ops [SetSubscription 42 7 "paid"; HasActiveSubscription 42]
                   (load_users None steady_clock) in
  db_file w = users w.
Proof.
  cbv zeta. destruct table_file_in_sync as [Hload Hkeep].
  apply Hkeep, Hload.
Defined.

Lemma registration_is_permanent_witness :
  exists u', users (run_ops [SetSubscription 42 30 "paid"; CanUseTrial 7] lapsed_world) !! "42"
             = Some u'
             /\ username u' = Some "tadashi" /\ last_active u' = 0.
Proof.
  apply (registration_is_permanent [SetSubscription 42 30 "paid"; CanUseTrial 7]
                                   lapsed_world "42" lapsed_user).
  vm_compute. reflexivity.
Defined.

Lemma activation_is_visible_witness :
  let w1 := exec (set_subscription_or_raise 42 7 "paid") world_2025 in
  eval (get_expiry 42) w1 = Some (clock_2025 1 + timedelta 7)
  /\ eval (has_active_subscription 42) w1 = true.
Proof.
  cbv zeta.
  destruct (activation_is_visible world_2025 42 7 "paid") as [Hreturns _].
  destruct Hreturns as (_ & Hexpiry & _ & Hactive & _); [vm_compute; reflexivity|].
  split; [exact Hexpiry|]. apply Hactive. vm_compute. discriminate.
Defined.

Lemma lapsed_record_views_witness :
  eval (get_expiry 42) lapsed_world = Some 100
  /\ eval (get_expiry 42) (exec (has_active_subscription 42) lapsed_world) = None.
Proof.
  destruct (lapsed_record_views lapsed_world 42 lapsed_user 100) as (Hbefore & Hafter & _);
    [vm_compute; reflexivity | reflexivity | reflexivity | vm_compute; reflexivity |].
  split; [exact Hbefore | exact Hafter].
Defined.

Lemma handle_callback_mutates_only_on_ok_witness :
  exec (@handle_callback Py.reference (Json failed_without_amount)) lapsed_world
  = lapsed_world.
Proof.
  apply (@handle_callback_mutates_only_on_ok Py.reference).
  vm_compute. discriminate.
Defined.

Lemma handle_callback_replay_witness :
  eval (@handle_callback Py.reference (Json paid_week))
       (exec (@handle_callback Py.reference (Json paid_week)) empty_world)
  = mkResponse "OK" 200.
Proof.
  destruct (@handle_callback_replay Py.reference paid_week empty_world) as [_ Hreplay].
  destruct Hreplay as [Hok _]; [vm_compute; reflexivity | exact Hok].
Defined.

Lemma start_registers_after_check_witness :
  start env no_templates 43 None empty_world
  = ([ReplyText (subscribe_prompt env)], empty_world)
  /\ is_Some (users (exec (start env no_templates 42 None) empty_world) !! "42").
Proof.
  split.
  - destruct (start_registers_after_check env no_templates 43 None empty_world) as [Hno _].
    destruct Hno as [Hstart _]; [vm_compute; reflexivity | exact Hstart].
  - destruct (start_registers_after_check env no_templates 42 None empty_world) as [_ Hyes].
    destruct Hyes as [Hstart _]; [vm_compute; reflexivity | exact Hstart].
Defined.

Lemma trial_grants_three_days_witness :
  exists u,
    users (exec (activate_trial 42) empty_world) !! "42" = Some u
    /\ type (subscription u) = Some "trial"
    /\ expires (subscription u) = Some (1001 + timedelta 3)
    /\ start_date (subscription u) = Some 1002
    /\ trial_used (subscription u) = true.
Proof.
  apply (trial_grants_three_days 42 empty_world).
  vm_compute. reflexivity.
Defined.

Lemma broadcast_reaches_everyone_witness :
  exists acts,
    sent_to acts = ["42"]
    /\ fst (fst (handle_broadcast_message all_but_42 (fun _ => true) "Привет" 1 broadcasting
                   lapsed_world))
       = ReplyText (mkMessage "📢 Начинаю рассылку..." NoMarkup None)
           :: acts
           ++ [EditText (mkMessage (finished_text 0 1) back_keyboard None)].
Proof.
  destruct (broadcast_reaches_everyone all_but_42 (fun _ => true) "Привет" 1 broadcasting
                                       lapsed_world)
    as (acts & fail_count & Hrun & Hsent & _ & _ & _ & Hexact);
    [reflexivity | discriminate |].
  exists acts. split; [rewrite Hsent; vm_compute; reflexivity|].
  rewrite Hrun, (Hexact (fun _ => eq_refl)). reflexivity.
Defined.

Lemma template_edit_round_trip_witness :
  let '(_, msgs1, ud1) :=
    handle_edit_message env true "📝 Текст расклада" 1 no_templates idle in
  let '(_, msgs2, _) := handle_edit_message env true back_button 1 msgs1 ud1 in
  MessageManager.get msgs2 "select_spread" "" = back_button.
Proof.
  pose proof (template_edit_round_trip env true "📝 Текст расклада" "select_spread"
                back_button 1 no_templates idle eq_refl eq_refl eq_refl) as Hedit.
  destruct (handle_edit_message env true "📝 Текст расклада" 1 no_templates idle)
    as [[acts1 msgs1] ud1].
  destruct (handle_edit_message env true back_button 1 msgs1 ud1) as [[acts2 msgs2] ud2].
  destruct Hedit as [Hget _]. apply Hget.
Defined.

Lemma modal_input_comes_first_witness :
  exists acts msgs',
    handle_text_modal env (fun _ => true) (fun _ => true) true back_button 1 no_templates
                      (with_editing (Some "start_message") idle) empty_world
    = (Some (acts, msgs', idle), empty_world)
    /\ MessageManager.get msgs' "start_message" default_start_message = back_button.
Proof.
  destruct (modal_input_comes_first env (fun _ => true) (fun _ => true) true back_button 1
              no_templates (with_editing (Some "start_message") idle) empty_world)
    as (_ & Hedit & _).
  destruct (Hedit eq_refl eq_refl eq_refl "start_message" eq_refl eq_refl)
    as (acts & msgs' & Hrun & Hget).
  exists acts, msgs'. split; [exact Hrun | apply Hget].
Defined.

Lemma main_polling_budget_witness :
  fst (main (Some "token") None (fun attempt => if (attempt <? 2)%nat then Conflict else Polled))
  = Returned.
Proof.
  destruct (main_polling_budget (Some "token") None
              (fun attempt => if (attempt <? 2)%nat then Conflict else Polled))
    as [_ Hrun].
  destruct Hrun as (_ & Hreturned & _); [reflexivity|].
  apply Hreturned. exists 2%nat. split; [lia | reflexivity].
Defined.

Lemma only_trial_button_alters_subscriptions_witness :
  users (snd (handle_text_tail gateway_down buy_button 42 idle lapsed_world))
    !! "42" = Some lapsed_user.
Proof.
  destruct (only_trial_button_alters_subscriptions gateway_down buy_button 42
              idle lapsed_world) as [Hkeep _]; [vm_compute; discriminate|].
  apply Hkeep. vm_compute. reflexivity.
Defined.

End MoreWitnesses.
